(** * The event diary of TodoList.py, embedded and verified

    The program keeps a list of [Event] objects in memory ([Diary.events]),
    mirrors it in the file [events.json] after every change, and reports to
    the user by printing.  Python is dynamically typed: an [Event] built
    from a stored record holds whatever the record held, so the fields of an
    event are Python values and the built-in operations applied to them
    ([==], [<], [max], [+], truth testing) can raise [TypeError]. *)

From Stdlib Require Import ZArith Lia.
From stdpp Require Import base option list strings sorting.

Set Warnings "-register-all".
Local Open Scope string_scope.
Local Open Scope list_scope.
Local Open Scope Z_scope.

(** ** Python values

    The values that [json.load] can hand to the program, which are also the
    values [json.dump] writes back unchanged.  Strings are UTF-8 byte
    strings; floating-point numbers are left out. *)

Inductive value : Type :=
| VNone
| VBool (b : bool)
| VInt (z : Z)
| VStr (s : string)
| VList (l : list value)
| VDict (d : list (string * value)).

(** Exceptions the modelled code can raise. *)
Inductive exn : Type :=
| JSONDecodeError
| KeyError (key : string)
| TypeError.

Inductive result (A : Type) : Type :=
| Ok (a : A)
| Raise (e : exn).
Arguments Ok {A} a.
Arguments Raise {A} e.

#[global] Instance result_ret : MRet result := @Ok.
#[global] Instance result_bind : MBind result := fun A B k r =>
  match r with
  | Ok a => k a
  | Raise e => Raise e
  end.

Module Py.

(** [bool] is a subtype of [int]: [True == 1], [True + 1 == 2]. *)
Definition as_int (v : value) : option Z :=
  match v with
  | VInt z => Some z
  | VBool b => Some (Z.b2z b)
  | _ => None
  end.

(** Truth value of an object, as tested by [if x:] and [not x]. *)
Definition truthy (v : value) : bool :=
  match v with
  | VNone => false
  | VBool b => b
  | VInt z => negb (z =? 0)%Z
  | VStr s => negb (String.eqb s "")
  | VList l => match l with [] => false | _ => true end
  | VDict d => match d with [] => false | _ => true end
  end.

(** [d[key]] and [d.get(key, default)] on a dict given by its items (keys
    distinct, as [json.load] builds them). *)
Fixpoint dict_lookup (key : string) (d : list (string * value)) : option value :=
  match d with
  | [] => None
  | (k, v) :: d' => if String.eqb k key then Some v else dict_lookup key d'
  end.

Definition getitem (data : value) (key : string) : result value :=
  match data with
  | VDict d =>
      match dict_lookup key d with
      | Some v => Ok v
      | None => Raise (KeyError key)
      end
  | _ => Raise TypeError
  end.

Definition get (data : value) (key : string) (dflt : value) : result value :=
  match data with
  | VDict d => Ok (default dflt (dict_lookup key d))
  | _ => Raise TypeError
  end.

(** [v == w].  Numbers compare by value across [bool] and [int]; lists
    element by element; dicts by their items, whatever their order. *)
Fixpoint eq (v w : value) {struct v} : bool :=
  match v with
  | VNone => match w with VNone => true | _ => false end
  | VBool b => match as_int w with Some z => (Z.b2z b =? z)%Z | None => false end
  | VInt a => match as_int w with Some z => (a =? z)%Z | None => false end
  | VStr s => match w with VStr t => String.eqb s t | _ => false end
  | VList l =>
      match w with
      | VList m =>
          (fix eq_list (l m : list value) {struct l} : bool :=
             match l, m with
             | [], [] => true
             | x :: l', y :: m' => eq x y && eq_list l' m'
             | _, _ => false
             end) l m
      | _ => false
      end
  | VDict d =>
      match w with
      | VDict d2 =>
          (length d =? length d2)%nat &&
          (fix eq_items (d : list (string * value)) {struct d} : bool :=
             match d with
             | [] => true
             | (k, x) :: d' =>
                 match dict_lookup k d2 with
                 | Some y => eq x y
                 | None => false
                 end && eq_items d'
             end) d
      | _ => false
      end
  end.

(** [v < w].  Defined between numbers, between strings (by code point,
    which on UTF-8 is the order of the bytes) and between lists (at the
    first position where they differ); [TypeError] otherwise. *)
Fixpoint lt (v w : value) {struct v} : result bool :=
  match v with
  | VBool b => match as_int w with Some z => Ok (Z.b2z b <? z)%Z | None => Raise TypeError end
  | VInt a => match as_int w with Some z => Ok (a <? z)%Z | None => Raise TypeError end
  | VStr s => match w with VStr t => Ok (String.ltb s t) | _ => Raise TypeError end
  | VList l =>
      match w with
      | VList m =>
          (fix lt_list (l m : list value) {struct l} : result bool :=
             match l, m with
             | [], [] => Ok false
             | [], _ :: _ => Ok true
             | _ :: _, [] => Ok false
             | x :: l', y :: m' => if eq x y then lt_list l' m' else lt x y
             end) l m
      | _ => Raise TypeError
      end
  | VNone | VDict _ => Raise TypeError
  end.

(** [v > w] is [w < v] on these types. *)
Definition gt (v w : value) : result bool := lt w v.

(** [v + 1]: only a number has it (a string or a list cannot be added to
    an [int]). *)
Definition add1 (v : value) : result value :=
  match as_int v with
  | Some z => Ok (VInt (z + 1))
  | None => Raise TypeError
  end.

(** [max(first, *rest)]: keeps the running maximum, replaced by an item
    only when [item > maximum]. *)
Fixpoint max_from (maximum : value) (rest : list value) : result value :=
  match rest with
  | [] => Ok maximum
  | item :: rest' =>
      b ← gt item maximum;
      max_from (if b : bool then item else maximum) rest'
  end.

(** [list.sort(key=...)]: a stable sort that compares keys with [<] only.
    The library's algorithm is not part of the program; the model is
    the insertion sort that moves an element past exactly the elements
    whose key is smaller, which on keys that [<] orders totally has the
    same outcome as any stable sort. *)
Section Sort.
Context {A : Type} (key : A -> value).

Fixpoint insert_by (x : A) (l : list A) : result (list A) :=
  match l with
  | [] => Ok [x]
  | y :: l' =>
      b ← lt (key y) (key x);
      if b : bool then l'' ← insert_by x l'; Ok (y :: l'')
      else Ok (x :: y :: l')
  end.

Fixpoint sort_by (l : list A) : result (list A) :=
  match l with
  | [] => Ok []
  | x :: l' => sorted ← sort_by l'; insert_by x sorted
  end.
End Sort.

End Py.

(** ** class Event *)

Module Event.

(** [Event(event_id, title, importance, date, completed)]: the constructor
    stores its arguments as they are. *)
Record t : Type := init {
  id : value;
  title : value;
  importance : value;
  date : value;
  completed : value
}.

Definition set_title (v : value) (self : t) : t :=
  init (id self) v (importance self) (date self) (completed self).
Definition set_importance (v : value) (self : t) : t :=
  init (id self) (title self) v (date self) (completed self).
Definition set_date (v : value) (self : t) : t :=
  init (id self) (title self) (importance self) v (completed self).
Definition set_completed (v : value) (self : t) : t :=
  init (id self) (title self) (importance self) (date self) v.

Definition to_dict (self : t) : value :=
  VDict [("id", id self);
         ("title", title self);
         ("importance", importance self);
         ("date", date self);
         ("completed", completed self)].

Definition from_dict (data : value) : result t :=
  a ← Py.getitem data "id";
  b ← Py.getitem data "title";
  c ← Py.getitem data "importance";
  d ← Py.getitem data "date";
  e ← Py.get data "completed" (VBool false);
  Ok (init a b c d e).

End Event.

(** What a call hands back: a plain value ([None] when the body ends
    without a [return]) or an [Event] instance. *)
Inductive object : Type :=
| Val (v : value)
| Inst (e : Event.t).

Abbreviation PyNone := (Val VNone).

(** ** class Diary *)

Module Diary.

(** What the file [FILE_NAME] holds: text that [json.load] rejects, or a
    JSON document, identified with the value [json.load] returns for it
    (and [json.dump] writes for that value; indentation and escaping are
    the library's). *)
Inductive contents : Type :=
| NotJson
| Json (doc : value).

(** The lines the methods print. *)
Inductive message : Type :=
| MsgAdded       (* "Событие добавлено успешно." *)
| MsgUpdated     (* "Событие обновлено успешно." *)
| MsgDeleted     (* "Событие удалено успешно." *)
| MsgCompleted   (* "Событие отмечено как выполненное." *)
| MsgSorted      (* "События отсортированы по дате." *)
| MsgNotFound.   (* "Событие не найдено." *)

(** [self.events], the file ([None] when it does not exist) and the
    console output so far. *)
Record state : Type := mkState {
  events : list Event.t;
  file : option contents;
  printed : list message
}.

(** A method runs on a state and either returns with a new state or
    raises.  An exception raised here is caught nowhere ([main] handles
    only [ValueError]) and ends the program; the file is written by
    [save_events] alone, after every step that can raise. *)
Definition M (A : Type) : Type := state -> result (A * state).

#[global] Instance M_ret : MRet M := fun A a s => Ok (a, s).
#[global] Instance M_bind : MBind M := fun A B k m s =>
  match m s with
  | Ok (a, s') => k a s'
  | Raise e => Raise e
  end.

Definition lift {A} (r : result A) : M A := fun s =>
  match r with
  | Ok a => Ok (a, s)
  | Raise e => Raise e
  end.

Definition get_events : M (list Event.t) := fun s => Ok (events s, s).
Definition set_events (l : list Event.t) : M unit := fun s =>
  Ok (tt, mkState l (file s) (printed s)).
Definition read_file : M (option contents) := fun s => Ok (file s, s).
Definition write_file (c : contents) : M unit := fun s =>
  Ok (tt, mkState (events s) (Some c) (printed s)).
Definition print (m : message) : M unit := fun s =>
  Ok (tt, mkState (events s) (file s) (printed s ++ [m])).

Definition json_load (c : contents) : result value :=
  match c with
  | NotJson => Raise JSONDecodeError
  | Json doc => Ok doc
  end.

(** [for event in data]: a list yields its elements, a dict its keys, a
    string its characters (here its bytes: [Event.from_dict] raises on
    the first of them either way); nothing else can be iterated. *)
Definition iter (data : value) : result (list value) :=
  match data with
  | VList l => Ok l
  | VDict d => Ok (VStr <$> d.*1)
  | VStr s => Ok ((fun c => VStr (String c "")) <$> String.list_ascii_of_string s)
  | _ => Raise TypeError
  end.

Definition load_events : M object :=
  f ← read_file;
  match f with
  | Some c =>
      data ← lift (json_load c);
      items ← lift (iter data);
      evs ← lift (mapM Event.from_dict items);
      set_events evs;;
      mret PyNone
  | None =>
      set_events [];;
      mret PyNone
  end.

Definition save_events : M object :=
  evs ← get_events;
  write_file (Json (VList (Event.to_dict <$> evs)));;
  mret PyNone.

Definition _generate_id : M value :=
  evs ← get_events;
  match evs with
  | [] => mret (VInt 1)
  | e :: rest =>
      m ← lift (Py.max_from (Event.id e) (Event.id <$> rest));
      lift (Py.add1 m)
  end.

Definition add_event (title importance date : value) : M object :=
  event_id ← _generate_id;
  let new_event := Event.init event_id title importance date (VBool false) in
  evs ← get_events;
  set_events (evs ++ [new_event]);;
  save_events;;
  print MsgAdded;;
  mret PyNone.

(** The loop returns the first event whose id equals [event_id].  The
    objects in [self.events] are pairwise different objects (each made
    by one call of the constructor), so the returned reference is
    modelled by the position of that object in the list. *)
Definition get_event_by_id (event_id : value) : M (option nat) :=
  evs ← get_events;
  mret (fst <$> list_find (fun e => Py.eq (Event.id e) event_id = true) evs).

(** [event.attr = v] on the object at position [ref]. *)
Definition setattr (ref : nat) (f : Event.t -> Event.t) : M unit :=
  evs ← get_events;
  set_events (alter f ref evs).

Definition when (b : bool) (m : M unit) : M unit :=
  if b then m else mret tt.

Definition edit_event (event_id title importance date : value) : M object :=
  event ← get_event_by_id event_id;
  match event with
  | Some ref =>
      when (Py.truthy title) (setattr ref (Event.set_title title));;
      when (Py.truthy importance) (setattr ref (Event.set_importance importance));;
      when (Py.truthy date) (setattr ref (Event.set_date date));;
      save_events;;
      print MsgUpdated;;
      mret PyNone
  | None =>
      print MsgNotFound;;
      mret PyNone
  end.

(** [self.events.remove(event)] removes the first element that is, or
    equals, [event]; [Event] defines no [__eq__], so that is the object
    itself, at position [ref]. *)
Definition delete_event (event_id : value) : M object :=
  event ← get_event_by_id event_id;
  match event with
  | Some ref =>
      evs ← get_events;
      set_events (delete ref evs);;
      save_events;;
      print MsgDeleted;;
      mret PyNone
  | None =>
      print MsgNotFound;;
      mret PyNone
  end.

Definition mark_completed (event_id : value) : M object :=
  event ← get_event_by_id event_id;
  match event with
  | Some ref =>
      setattr ref (Event.set_completed (VBool true));;
      save_events;;
      print MsgCompleted;;
      mret PyNone
  | None =>
      print MsgNotFound;;
      mret PyNone
  end.

Definition sort_events_by_date : M object :=
  evs ← get_events;
  sorted ← lift (Py.sort_by Event.date evs);
  set_events sorted;;
  save_events;;
  print MsgSorted;;
  mret PyNone.

(** [Diary()]: an empty list, then [load_events]; [f] is the file found
    at start-up. *)
Definition init (f : option contents) : result (object * state) :=
  load_events (mkState [] f []).

(** The five changing operations the menu offers. *)
Inductive op : Type :=
| Add (title importance date : value)
| Edit (event_id title importance date : value)
| Delete (event_id : value)
| MarkCompleted (event_id : value)
| SortByDate.

Definition run (o : op) : M object :=
  match o with
  | Add t i d => add_event t i d
  | Edit n t i d => edit_event n t i d
  | Delete n => delete_event n
  | MarkCompleted n => mark_completed n
  | SortByDate => sort_events_by_date
  end.

End Diary.

(** ** Vocabulary of the statements *)

(** The file as [save_events] leaves it for a list of events. *)
Definition saved (evs : list Event.t) : option Diary.contents :=
  Some (Diary.Json (VList (Event.to_dict <$> evs))).

(** The first event whose id equals [n], with its position: what the loop
    of [get_event_by_id] stops at. *)
Definition first_with_id (n : value) (evs : list Event.t) : option (nat * Event.t) :=
  list_find (fun e => Py.eq (Event.id e) n = true) evs.

(** The id the specification promises: [max(existing ids) + 1], or [1]
    for an empty store. *)
Definition next_id (zs : list Z) : Z :=
  match zs with
  | [] => 1
  | z :: rest => foldl Z.max z rest + 1
  end.

(** [a] is dated no later than [b], both dates being strings. *)
Definition date_le (a b : Event.t) : Prop :=
  match Event.date a, Event.date b with
  | VStr x, VStr y => String.leb x y = true
  | _, _ => False
  end.

(** The event is dated [d]. *)
Definition has_date (d : string) (e : Event.t) : Prop :=
  Event.date e = VStr d.

#[global] Instance has_date_dec d e : Decision (has_date d e).
Proof.
  unfold has_date. destruct (Event.date e) as [| | |x| |];
    try (right; discriminate).
  destruct (decide (x = d)) as [->|Hne]; [by left|right; congruence].
Defined.

(** The keys [Event.from_dict] reads with [data[key]]. *)
Definition required_keys : list string := ["id"; "title"; "importance"; "date"].

(** A stored record that [Event.from_dict] accepts: a dict that has the
    required keys, whatever it holds under them. *)
Definition record_ok (v : value) : Prop :=
  exists d, v = VDict d /\
    Forall (fun k => is_Some (Py.dict_lookup k d)) required_keys.

(** A document that [load_events] accepts record by record. *)
Definition valid_document (c : Diary.contents) : Prop :=
  exists l, c = Diary.Json (VList l) /\ Forall record_ok l.

(** ** Vocabulary of the further statements *)

(** A fresh [Diary()] started on the file of [s] holds the events of [s]. *)
Definition restartable (s : Diary.state) : Prop :=
  Diary.init (Diary.file s) =
    Ok (PyNone, Diary.mkState (Diary.events s) (Diary.file s) []).

(** A string, as [input] returns. *)
Definition text (v : value) : Prop := exists x, v = VStr x.

(** An event with a positive integer id, strings as title, importance and
    date, and a boolean completed flag. *)
Definition data_model (e : Event.t) : Prop :=
  exists n t i d c,
    0 < n /\ e = Event.init (VInt n) (VStr t) (VStr i) (VStr d) (VBool c).

Definition store_ok (s : Diary.state) : Prop :=
  Forall data_model (Diary.events s) /\ NoDup (Event.id <$> Diary.events s).

(** The calls in which title, importance and date are strings, as they are
    when the values come from [input]. *)
Definition text_op (o : Diary.op) : Prop :=
  match o with
  | Diary.Add t i d => text t /\ text i /\ text d
  | Diary.Edit _ t i d => text t /\ text i /\ text d
  | _ => True
  end.

(** One operation after the other, stopping at the first that raises. *)
Fixpoint run_all (os : list Diary.op) (s : Diary.state) : result Diary.state :=
  match os with
  | [] => Ok s
  | o :: os' =>
      match Diary.run o s with
      | Ok (_, s') => run_all os' s'
      | Raise e => Raise e
      end
  end.

(** The number of events shown as completed. *)
Definition count_completed (evs : list Event.t) : nat :=
  length (filter (fun e => Py.truthy (Event.completed e) = true) evs).

(** ** The console: [display_events], [input_date] and [main]

    These print more than the fixed lines of the other methods and read
    the keyboard, so they run on a world that has, beside the list of
    events and the file, the lines still to be typed and everything written
    so far. *)

Module Console.

(** The argument of [input]; the three prompts of the edit dialogue show
    the current value of the field. *)
Inductive prompt : Type :=
| AskChoice                     (* "Выберите действие: " *)
| AskTitle                      (* "Введите название события: " *)
| AskImportance                 (* "Введите важность (Высокая/Средняя/Низкая): " *)
| AskDate                       (* "Введите дату события (YYYY-MM-DD): " *)
| AskEditId                     (* "Введите ID события для редактирования: " *)
| AskNewTitle (old : value)     (* f"Новое название ({event.title}): " *)
| AskNewImportance (old : value) (* f"Новая важность ({event.importance}): " *)
| AskChangeDate                 (* "Изменить дату? (y/n): " *)
| AskNewDate (old : value)      (* f"Новая дата ({event.date}): " *)
| AskDeleteId                   (* "Введите ID события для удаления: " *)
| AskCompleteId.                (* "Введите ID события для отметки как выполненного: " *)

Inductive status : Type :=
| Completed                     (* "Выполнено" *)
| NotCompleted.                 (* "Не выполнено" *)

(** What is written to the console, piece by piece.  A [Row] holds the
    five values handed to [str.format]; laying them out in columns is the
    library's. *)
Inductive output : Type :=
| Said (m : Diary.message)      (* one of the lines the methods of Diary print *)
| NoEvents                      (* "Событий нет." *)
| TableHead                     (* the title, the column headings and the rule *)
| Row (id title importance date : value) (st : status)
| TableEnd                      (* the empty line after the rows *)
| BadDate                       (* "Неверный формат даты. Используйте YYYY-MM-DD." *)
| Menu                          (* the eight lines of the menu *)
| Asked (p : prompt)
| EditHint                      (* "Оставьте поле пустым, чтобы не изменять." *)
| BadId                         (* "Некорректный ввод ID." *)
| Bye                           (* "До свидания!" *)
| BadChoice.                    (* "Некорректный выбор. Пожалуйста, попробуйте снова." *)

Record world : Type := mkWorld {
  events : list Event.t;
  file : option Diary.contents;
  stdin : list string;
  stdout : list output
}.

(** An exception on its way up: one of those of the store, the [EOFError]
    of [input] when nothing is left to read, the exception of [d[:30]] on
    a dict [d] ([TypeError] before Python 3.12, [KeyError] since), or the
    [ValueError] of [int]. *)
Inductive error : Type :=
| Uncaught (e : exn)
| EOFError
| SliceOfDict
| ValueError.

(** A run returns in a world, or stops at an exception in the world
    reached by then. *)
Inductive outcome (A : Type) : Type :=
| Done (a : A) (w : world)
| Fail (e : error) (w : world).
Arguments Done {A} a w.
Arguments Fail {A} e w.

Definition M (A : Type) : Type := world -> outcome A.

#[global] Instance M_ret : MRet M := fun A a w => Done a w.
#[global] Instance M_bind : MBind M := fun A B k m w =>
  match m w with
  | Done a w' => k a w'
  | Fail e w' => Fail e w'
  end.

Definition print (o : output) : M unit := fun w =>
  Done tt (mkWorld (events w) (file w) (stdin w) (stdout w ++ [o])).

(** [input(prompt)] writes the prompt and returns the next line typed. *)
Definition input (p : prompt) : M string := fun w =>
  match stdin w with
  | [] => Fail EOFError (mkWorld (events w) (file w) [] (stdout w ++ [Asked p]))
  | line :: rest => Done line (mkWorld (events w) (file w) rest (stdout w ++ [Asked p]))
  end.

(** A call of a method of the store: it runs on the list and the file, and
    what it prints goes to the console.  When it raises, the file is as
    before the call (see [Diary.M]). *)
Definition call {A} (m : Diary.M A) : M A := fun w =>
  match m (Diary.mkState (events w) (file w) []) with
  | Ok (a, s) =>
      Done a (mkWorld (Diary.events s) (Diary.file s) (stdin w)
                (stdout w ++ (Said <$> Diary.printed s)))
  | Raise e => Fail (Uncaught e) w
  end.

(** *** display_events *)

(** A byte that continues a UTF-8 character: [10xxxxxx]. *)
Definition is_continuation (c : Ascii.ascii) : bool :=
  match c with
  | Ascii.Ascii _ _ _ _ _ _ b6 b7 => b7 && negb b6
  end.


(** [s[:n]]: the first [n] characters, each with all its bytes. *)
Fixpoint take_chars (n : nat) (s : string) : string :=
  match s with
  | EmptyString => EmptyString
  | String c s' =>
      if is_continuation c then String c (take_chars n s')
      else match n with
           | O => EmptyString
           | S n' => String c (take_chars n' s')
           end
  end.

(** [v[:30]] *)
Definition slice30 (v : value) : error + value :=
  match v with
  | VStr s => inr (VStr (take_chars 30 s))
  | VList l => inr (VList (take 30 l))
  | VDict _ => inl SliceOfDict
  | VNone | VBool _ | VInt _ => inl (Uncaught TypeError)
  end.

(** [format(v, "<5")]: strings and numbers take an alignment and a width,
    nothing else does. *)
Definition formattable (v : value) : bool :=
  match v with
  | VStr _ | VInt _ | VBool _ => true
  | VNone | VList _ | VDict _ => false
  end.

(** The body of the loop over the events: the status, then the row. *)
Definition row (event : Event.t) : error + output :=
  let st := if Py.truthy (Event.completed event) then Completed else NotCompleted in
  match slice30 (Event.title event) with
  | inl e => inl e
  | inr title30 =>
      if formattable (Event.id event) && formattable title30 &&
         formattable (Event.importance event) && formattable (Event.date event)
      then inr (Row (Event.id event) title30 (Event.importance event)
                  (Event.date event) st)
      else inl (Uncaught TypeError)
  end.

Fixpoint print_rows (evs : list Event.t) : M unit :=
  match evs with
  | [] => mret tt
  | event :: evs' =>
      match row event with
      | inr r => print r;; print_rows evs'
      | inl e => Fail e
      end
  end.

Definition display_events : M unit := fun w =>
  match events w with
  | [] => print NoEvents w
  | evs => (print TableHead;; print_rows evs;; print TableEnd) w
  end.

(** *** input_date and main

    [datetime.strptime] and [int] are the library's; the program uses of
    them only whether they raise [ValueError], and the value of [int]. *)
Section Library.

(** Whether [datetime.strptime(s, '%Y-%m-%d')] returns. *)
Variable strptime_ok : string -> bool.
(** [int(s)], [None] when it raises [ValueError]. *)
Variable parse_int : string -> option Z.

(** The loop of [input_date] asks again after every line that is not a
    date; it is written by recursion on the lines still to be typed, of
    which every round reads one. *)
Fixpoint input_date_on (p : prompt) (lines : list string) (w : world) : outcome string :=
  match lines with
  | [] => Fail EOFError (mkWorld (events w) (file w) [] (stdout w ++ [Asked p]))
  | date_str :: rest =>
      let w' := mkWorld (events w) (file w) rest (stdout w ++ [Asked p]) in
      if strptime_ok date_str then Done date_str w'
      else input_date_on p rest
             (mkWorld (events w') (file w') (stdin w') (stdout w' ++ [BadDate]))
  end.

Definition input_date (p : prompt) : M string := fun w =>
  input_date_on p (stdin w) w.

(** [x or v] for a string [x]. *)
Definition or_else (x : string) (v : value) : value :=
  if Py.truthy (VStr x) then VStr x else v.

(** [s.lower() == 'y'] *)
Definition lower_is_y (s : string) : bool :=
  String.eqb s "y" || String.eqb s "Y".

(** [diary.get_event_by_id(event_id)], the object with its position. *)
Definition get_event (event_id : value) : M (option (nat * Event.t)) := fun w =>
  Done (first_with_id event_id (events w)) w.

(** [int(input(prompt))] *)
Definition int_input (p : prompt) : M Z :=
  line ← input p;
  match parse_int line with
  | Some n => mret n
  | None => fun w => Fail ValueError w
  end.

(** The exceptions that [except ValueError] catches: that of [int], and
    [json.JSONDecodeError], which is a subclass of [ValueError]. *)
Definition is_ValueError (e : error) : bool :=
  match e with
  | ValueError | Uncaught JSONDecodeError => true
  | _ => false
  end.

(** [try: body  except ValueError: print("Некорректный ввод ID.")].  The
    handler encloses the whole body, the calls of the store with it.  The
    writing of the file inside them is taken to succeed (see
    [Diary.save_events]); where it would not, see [safe] below. *)
Definition except_ValueError (body : M unit) : M unit := fun w =>
  match body w with
  | Done a w' => Done a w'
  | Fail e w' => if is_ValueError e then print BadId w' else Fail e w'
  end.

(** One round of the menu; [false] when the user leaves. *)
Definition round : M bool :=
  print Menu;;
  choice ← input AskChoice;
  if String.eqb choice "1" then
    display_events;; mret true
  else if String.eqb choice "2" then
    title ← input AskTitle;
    importance ← input AskImportance;
    date ← input_date AskDate;
    call (Diary.add_event (VStr title) (VStr importance) (VStr date));;
    mret true
  else if String.eqb choice "3" then
    except_ValueError (
      event_id ← int_input AskEditId;
      event ← get_event (VInt event_id);
      match event with
      | Some (_, event) =>
          print EditHint;;
          answer ← input (AskNewTitle (Event.title event));
          let new_title := or_else answer (Event.title event) in
          answer ← input (AskNewImportance (Event.importance event));
          let new_importance := or_else answer (Event.importance event) in
          answer ← input AskChangeDate;
          new_date ← (if lower_is_y answer
                      then date ← input_date (AskNewDate (Event.date event));
                           mret (VStr date)
                      else mret (Event.date event) : M value);
          call (Diary.edit_event (VInt event_id) new_title new_importance new_date);;
          mret tt
      | None => print (Said Diary.MsgNotFound)
      end);;
    mret true
  else if String.eqb choice "4" then
    except_ValueError (
      event_id ← int_input AskDeleteId;
      call (Diary.delete_event (VInt event_id));;
      mret tt);;
    mret true
  else if String.eqb choice "5" then
    except_ValueError (
      event_id ← int_input AskCompleteId;
      call (Diary.mark_completed (VInt event_id));;
      mret tt);;
    mret true
  else if String.eqb choice "6" then
    call Diary.sort_events_by_date;; mret true
  else if String.eqb choice "0" then
    print Bye;; mret false
  else
    print BadChoice;; mret true.

(** [while True]: rounds until the user leaves.  Every round reads a line,
    so the number of lines to be typed bounds the number of rounds; [None]
    stands for more rounds than [fuel]. *)
Fixpoint rounds (fuel : nat) (w : world) : option (outcome unit) :=
  match fuel with
  | O => None
  | S fuel' =>
      match round w with
      | Done true w' => rounds fuel' w'
      | Done false w' => Some (Done tt w')
      | Fail e w' => Some (Fail e w')
      end
  end.

(** [main()], started with the file [f] and the lines [lines] to be typed. *)
Definition main (f : option Diary.contents) (lines : list string) : option (outcome unit) :=
  let w0 := mkWorld [] f lines [] in
  match call Diary.load_events w0 with
  | Done _ w => rounds (S (length lines)) w
  | Fail e w => Some (Fail e w)
  end.

End Library.

End Console.

(** ** Vocabulary of the statements about the console *)

(** An event that [display_events] can lay out in a row: a string as
    title, strings or numbers as id, importance and date. *)
Definition printable (e : Event.t) : Prop :=
  Console.formattable (Event.id e) = true /\ text (Event.title e) /\
  Console.formattable (Event.importance e) = true /\
  Console.formattable (Event.date e) = true.

(** The event is dated by a string that is [good]. *)
Definition dated (good : string -> Prop) (e : Event.t) : Prop :=
  exists d, Event.date e = VStr d /\ good d.

(** The store of a world. *)
Definition store_of (w : Console.world) : Diary.state :=
  Diary.mkState (Console.events w) (Console.file w) [].

(** [m], started in a world satisfying [P], returns a result and a world
    satisfying [Q], or stops at an exception [e] in a world satisfying
    [R e]. *)
Definition leads {A} (P : Console.world -> Prop) (m : Console.M A)
    (Q : A -> Console.world -> Prop) (R : Console.error -> Console.world -> Prop) : Prop :=
  forall w, P w ->
    match m w with
    | Console.Done a w' => Q a w'
    | Console.Fail e w' => R e w'
    end.

(** [m] leaves no more lines to be typed than it found. *)
Definition reads_on {A} (m : Console.M A) : Prop :=
  forall w,
    match m w with
    | Console.Done _ w' | Console.Fail _ w' =>
        (length (Console.stdin w') <= length (Console.stdin w))%nat
    end.

(** [m] reads at least one line before it returns. *)
Definition reads_some {A} (m : Console.M A) : Prop :=
  forall w,
    match m w with
    | Console.Done _ w' => (length (Console.stdin w') < length (Console.stdin w))%nat
    | Console.Fail _ w' => (length (Console.stdin w') <= length (Console.stdin w))%nat
    end.

(** *** What [json.dump] can write

    The model takes the writing of the file to succeed.  It does for the
    lists described here: strings that are UTF-8 text (a Python string
    with a lone surrogate, as [input] makes of a stray byte, is none) and
    integers of no more than 4300 digits, the length up to which the
    interpreter turns an [int] into text unless told otherwise. *)

Definition byte_in (lo hi : N) (c : Ascii.ascii) : bool :=
  (lo <=? Ascii.N_of_ascii c)%N && (Ascii.N_of_ascii c <=? hi)%N.

(** Well-formed UTF-8 (RFC 3629): no overlong form, no surrogate, nothing
    above U+10FFFF. *)
Fixpoint utf8_text (s : string) : bool :=
  match s with
  | EmptyString => true
  | String a s1 =>
      if byte_in 0x00 0x7F a then utf8_text s1
      else
        match s1 with
        | EmptyString => false
        | String b s2 =>
            if byte_in 0xC2 0xDF a then byte_in 0x80 0xBF b && utf8_text s2
            else
              match s2 with
              | EmptyString => false
              | String c s3 =>
                  if byte_in 0xE0 0xEF a then
                    (byte_in 0xE0 0xE0 a && byte_in 0xA0 0xBF b
                     || byte_in 0xE1 0xEC a && byte_in 0x80 0xBF b
                     || byte_in 0xED 0xED a && byte_in 0x80 0x9F b
                     || byte_in 0xEE 0xEF a && byte_in 0x80 0xBF b)
                    && byte_in 0x80 0xBF c && utf8_text s3
                  else
                    match s3 with
                    | EmptyString => false
                    | String d s4 =>
                        (byte_in 0xF0 0xF0 a && byte_in 0x90 0xBF b
                         || byte_in 0xF1 0xF3 a && byte_in 0x80 0xBF b
                         || byte_in 0xF4 0xF4 a && byte_in 0x80 0x8F b)
                        && byte_in 0x80 0xBF c && byte_in 0x80 0xBF d
                        && utf8_text s4
                    end
              end
        end
  end.

(** A string of UTF-8 text as a value. *)
Definition clean (v : value) : Prop := exists x, v = VStr x /\ utf8_text x = true.

(** The first integer of more than 4300 digits. *)
Definition digit_limit : Z := 10 ^ 4300.

(** An event of the data model that [json.dump] can write, its id leaving
    room for [k] more ids before the limit. *)
Definition writable (k : nat) (e : Event.t) : Prop :=
  exists n t i d c,
    0 < n /\ n + Z.of_nat k < digit_limit /\
    utf8_text t = true /\ utf8_text i = true /\ utf8_text d = true /\
    e = Event.init (VInt n) (VStr t) (VStr i) (VStr d) (VBool c).

Definition store_writable (k : nat) (evs : list Event.t) : Prop :=
  Z.of_nat k < digit_limit /\ Forall (writable k) evs.

(** The calls in which title, importance and date are UTF-8 text. *)
Definition clean_op (o : Diary.op) : Prop :=
  match o with
  | Diary.Add t i d => clean t /\ clean i /\ clean d
  | Diary.Edit _ t i d => clean t /\ clean i /\ clean d
  | _ => True
  end.

(** A world in which a session cannot go wrong: the store follows the
    data model, a restart would read the file back as the list in memory,
    the lines still to be typed are UTF-8 text, and every event can be
    written, its id leaving room for as many more ids as there are lines
    to be typed and [slack] beyond. *)
Definition safe (slack : nat) (w : Console.world) : Prop :=
  store_ok (store_of w) /\ restartable (store_of w) /\
  Forall (fun l => utf8_text l = true) (Console.stdin w) /\
  store_writable (slack + length (Console.stdin w)) (Console.events w).

(** *** Invariants of a session *)

(** A property of worlds that the steps at the console keep: it holds on
    while lines are read as long as list and file stay, under it the
    lines still to be typed are [line]s, and it allows the [EOFError] of
    an [input] left without a line. *)
Definition kept (line : string -> Prop) (R : Console.error -> Console.world -> Prop)
    (I : Console.world -> Prop) : Prop :=
  (forall w w', Console.events w' = Console.events w -> Console.file w' = Console.file w ->
                Console.stdin w' `suffix_of` Console.stdin w -> I w -> I w') /\
  (forall w, I w -> Forall line (Console.stdin w)) /\
  (forall w, I w -> R Console.EOFError w).

(** What [main] hands to the store in a world: to [add_event] three lines
    typed, the last one taken by [input_date]; to [edit_event], for an
    event found by its id, for every field a line typed or the value the
    event has, a new date being one taken by [input_date]. *)
Definition from_menu (line date : string -> Prop) (w : Console.world) (o : Diary.op) : Prop :=
  match o with
  | Diary.Add t i d =>
      (exists x, t = VStr x /\ line x) /\ (exists x, i = VStr x /\ line x) /\
      (exists x, d = VStr x /\ line x /\ date x)
  | Diary.Edit n t i d =>
      exists ref old,
        first_with_id n (Console.events w) = Some (ref, old) /\
        (t = Event.title old \/ exists x, t = VStr x /\ line x) /\
        (i = Event.importance old \/ exists x, i = VStr x /\ line x) /\
        (d = Event.date old \/ exists x, d = VStr x /\ line x /\ date x)
  | _ => True
  end.

(** Inside [try ... except ValueError]: an exception the handler catches
    leaves a world in which the round can go on, any other is as
    outside. *)
Definition unless_ValueError (I : Console.world -> Prop)
    (R : Console.error -> Console.world -> Prop) : Console.error -> Console.world -> Prop :=
  fun e w => if Console.is_ValueError e then I w else R e w.

(** A session that ends well: by the [EOFError] of [input] if by an
    exception at all, in a safe world. *)
Definition starved (e : Console.error) (w : Console.world) : Prop :=
  e = Console.EOFError /\ safe 0 w.

(** Every event is dated by a string that [strptime] takes. *)
Definition all_dated (strptime_ok : string -> bool) (w : Console.world) : Prop :=
  Forall (dated (fun d => strptime_ok d = true)) (Console.events w).

(** * Properties *)

(** ** Running the methods

    Closed forms of each method, from which the results below follow. *)

Section Runs.
Import Diary.
Implicit Types (s : state) (evs : list Event.t) (n : value).

Lemma save_events_run s :
  save_events s = Ok (PyNone, mkState (events s) (saved (events s)) (printed s)).
Proof. reflexivity. Qed.

Lemma get_event_by_id_run n s :
  get_event_by_id n s = Ok (fst <$> first_with_id n (events s), s).
Proof. reflexivity. Qed.

Lemma first_with_id_Some n evs ref e :
  first_with_id n evs = Some (ref, e) <->
  evs !! ref = Some e /\ Py.eq (Event.id e) n = true /\
  forall j e', evs !! j = Some e' -> (j < ref)%nat -> Py.eq (Event.id e') n = false.
Proof.
  unfold first_with_id. rewrite list_find_Some.
  split; intros (Hl & He & Hlt); repeat split; try done.
  - intros j e' Hj Hji. specialize (Hlt j e' Hj Hji).
    by destruct (Py.eq (Event.id e') n).
  - intros j e' Hj Hji. by rewrite (Hlt j e' Hj Hji).
Qed.

Lemma first_with_id_None n evs :
  first_with_id n evs = None <->
  forall e, e ∈ evs -> Py.eq (Event.id e) n = false.
Proof.
  unfold first_with_id. rewrite list_find_None, Forall_forall.
  split; intros H e He; specialize (H e He).
  - by destruct (Py.eq (Event.id e) n).
  - by rewrite H.
Qed.

Lemma first_with_id_elem n evs e :
  e ∈ evs -> Py.eq (Event.id e) n = true ->
  exists ref e0, first_with_id n evs = Some (ref, e0).
Proof.
  intros He Heq.
  destruct (first_with_id n evs) as [[ref e0]|] eqn:Hf; [by eauto|].
  rewrite first_with_id_None in Hf. rewrite (Hf e He) in Heq. done.
Qed.

Lemma add_event_run title importance date s v :
  _generate_id s = Ok (v, s) ->
  add_event title importance date s =
    let evs := events s ++ [Event.init v title importance date (VBool false)] in
    Ok (PyNone, mkState evs (saved evs) (printed s ++ [MsgAdded])).
Proof.
  intros Hg. unfold add_event, mbind, M_bind. rewrite Hg. reflexivity.
Qed.

Lemma alter_as_insert (f : Event.t -> Event.t) evs ref e :
  evs !! ref = Some e -> alter f ref evs = <[ref := f e]> evs.
Proof.
  revert ref. induction evs as [|x evs IH]; intros [|ref] H; simplify_eq/=; try done.
  f_equal. by apply IH.
Qed.

Lemma when_setattr_run (b : bool) f ref s e :
  events s !! ref = Some e ->
  when b (setattr ref f) s =
    Ok (tt, mkState (<[ref := if b then f e else e]> (events s)) (file s) (printed s)).
Proof.
  intros Hl. destruct b; cbn.
  - unfold setattr, mbind, M_bind; cbn. by rewrite (alter_as_insert _ _ _ _ Hl).
  - rewrite (list_insert_id _ _ _ Hl). by destruct s.
Qed.

Lemma setattr_run f ref s e :
  events s !! ref = Some e ->
  setattr ref f s = Ok (tt, mkState (<[ref := f e]> (events s)) (file s) (printed s)).
Proof. apply (when_setattr_run true). Qed.

Lemma edit_event_found n title importance date s ref e :
  first_with_id n (events s) = Some (ref, e) ->
  edit_event n title importance date s =
    let e' := Event.init (Event.id e)
                (if Py.truthy title then title else Event.title e)
                (if Py.truthy importance then importance else Event.importance e)
                (if Py.truthy date then date else Event.date e)
                (Event.completed e) in
    let evs := <[ref := e']> (events s) in
    Ok (PyNone, mkState evs (saved evs) (printed s ++ [MsgUpdated])).
Proof.
  intros Hf. pose proof Hf as (Hl & _ & _)%first_with_id_Some.
  pose proof (lookup_lt_Some _ _ _ Hl) as Hlt.
  unfold edit_event. unfold mbind at 1, M_bind at 1.
  rewrite get_event_by_id_run, Hf. cbn [fmap option_fmap option_map fst].
  unfold mbind at 1, M_bind at 1.
  rewrite (when_setattr_run _ _ _ _ e Hl).
  unfold mbind at 1, M_bind at 1.
  erewrite when_setattr_run by (cbn; by apply list_lookup_insert_eq).
  unfold mbind at 1, M_bind at 1.
  erewrite when_setattr_run
    by (cbn; apply list_lookup_insert_eq; by rewrite length_insert).
  cbn. rewrite !list_insert_insert_eq.
  destruct e as [a b c d x].
  by destruct (Py.truthy title), (Py.truthy importance), (Py.truthy date).
Qed.

Lemma edit_event_missing n title importance date s :
  first_with_id n (events s) = None ->
  edit_event n title importance date s =
    Ok (PyNone, mkState (events s) (file s) (printed s ++ [MsgNotFound])).
Proof.
  intros Hf. unfold edit_event, mbind, M_bind.
  by rewrite get_event_by_id_run, Hf.
Qed.

Lemma delete_event_found n s ref e :
  first_with_id n (events s) = Some (ref, e) ->
  delete_event n s =
    let evs := delete ref (events s) in
    Ok (PyNone, mkState evs (saved evs) (printed s ++ [MsgDeleted])).
Proof.
  intros Hf. unfold delete_event, mbind, M_bind.
  by rewrite get_event_by_id_run, Hf.
Qed.

Lemma delete_event_missing n s :
  first_with_id n (events s) = None ->
  delete_event n s =
    Ok (PyNone, mkState (events s) (file s) (printed s ++ [MsgNotFound])).
Proof.
  intros Hf. unfold delete_event, mbind, M_bind.
  by rewrite get_event_by_id_run, Hf.
Qed.

Lemma mark_completed_found n s ref e :
  first_with_id n (events s) = Some (ref, e) ->
  mark_completed n s =
    let evs := <[ref := Event.set_completed (VBool true) e]> (events s) in
    Ok (PyNone, mkState evs (saved evs) (printed s ++ [MsgCompleted])).
Proof.
  intros Hf. pose proof Hf as (Hl & _ & _)%first_with_id_Some.
  unfold mark_completed. unfold mbind at 1, M_bind at 1.
  rewrite get_event_by_id_run, Hf. cbn [fmap option_fmap option_map fst].
  unfold mbind at 1, M_bind at 1.
  rewrite (setattr_run _ _ _ e Hl). reflexivity.
Qed.

Lemma mark_completed_missing n s :
  first_with_id n (events s) = None ->
  mark_completed n s =
    Ok (PyNone, mkState (events s) (file s) (printed s ++ [MsgNotFound])).
Proof.
  intros Hf. unfold mark_completed, mbind, M_bind.
  by rewrite get_event_by_id_run, Hf.
Qed.

Lemma sort_events_by_date_run s sorted :
  Py.sort_by Event.date (events s) = Ok sorted ->
  sort_events_by_date s =
    Ok (PyNone, mkState sorted (saved sorted) (printed s ++ [MsgSorted])).
Proof.
  intros Hs. unfold sort_events_by_date, mbind, M_bind, lift; cbn.
  by rewrite Hs.
Qed.
End Runs.

(** ** The order on strings used by [<] *)

Section StringOrder.
Implicit Types (x y z : string).

Lemma ascii_compare_refl (a : Ascii.ascii) : Ascii.compare a a = Eq.
Proof. apply N.compare_refl. Qed.

Lemma ascii_compare_lt_trans (a b c : Ascii.ascii) :
  Ascii.compare a b = Lt -> Ascii.compare b c = Lt -> Ascii.compare a c = Lt.
Proof. unfold Ascii.compare. rewrite !N.compare_lt_iff. apply N.lt_trans. Qed.

Lemma string_compare_refl x : String.compare x x = Eq.
Proof. induction x as [|a x IH]; cbn; [done|]. by rewrite ascii_compare_refl. Qed.

Lemma string_compare_lt_trans x y z :
  String.compare x y = Lt -> String.compare y z = Lt -> String.compare x z = Lt.
Proof.
  revert y z. induction x as [|a x IH]; intros [|b y] [|c z]; cbn; try done.
  destruct (Ascii.compare a b) eqn:Hab; try done;
    destruct (Ascii.compare b c) eqn:Hbc; try done; intros Hxy Hyz.
  - apply Ascii.compare_eq_iff in Hab, Hbc. subst.
    rewrite ascii_compare_refl. eauto.
  - apply Ascii.compare_eq_iff in Hab. subst. by rewrite Hbc.
  - apply Ascii.compare_eq_iff in Hbc. subst. by rewrite Hab.
  - by rewrite (ascii_compare_lt_trans _ _ _ Hab Hbc).
Qed.

Lemma string_ltb_irrefl x : String.ltb x x = false.
Proof. unfold String.ltb. by rewrite string_compare_refl. Qed.

(** [not (x < y)] is [y <= x]. *)
Lemma string_ltb_false x y : String.ltb x y = false <-> String.leb y x = true.
Proof.
  unfold String.ltb, String.leb. rewrite (String.compare_antisym x y).
  by destruct (String.compare y x).
Qed.

Lemma string_ltb_leb x y : String.ltb x y = true -> String.leb x y = true.
Proof. unfold String.ltb, String.leb. by destruct (String.compare x y). Qed.

Lemma string_leb_trans x y z :
  String.leb x y = true -> String.leb y z = true -> String.leb x z = true.
Proof.
  unfold String.leb.
  destruct (String.compare x y) eqn:Hxy; try done;
    destruct (String.compare y z) eqn:Hyz; try done; intros _ _.
  - apply String.compare_eq_iff in Hxy, Hyz. subst. by rewrite string_compare_refl.
  - apply String.compare_eq_iff in Hxy. subst. by rewrite Hyz.
  - apply String.compare_eq_iff in Hyz. subst. by rewrite Hxy.
  - by rewrite (string_compare_lt_trans _ _ _ Hxy Hyz).
Qed.
End StringOrder.

(** ** Sorting events whose dates are strings *)

Section SortByDate.
Implicit Types (e : Event.t) (evs : list Event.t) (ds : list string).

Lemma date_le_trans a b c : date_le a b -> date_le b c -> date_le a c.
Proof.
  unfold date_le.
  destruct (Event.date a), (Event.date b), (Event.date c); try done.
  apply string_leb_trans.
Qed.

Lemma insert_by_dates e evs d ds :
  Event.date e = VStr d ->
  Event.date <$> evs = VStr <$> ds ->
  StronglySorted date_le evs ->
  exists evs',
    Py.insert_by Event.date e evs = Ok evs' /\
    evs' ≡ₚ e :: evs /\
    StronglySorted date_le evs' /\
    forall k, filter (has_date k) evs' = filter (has_date k) (e :: evs).
Proof.
  intros He. revert ds. induction evs as [|y evs IH]; intros ds Hds Hsorted.
  { exists [e]. repeat split; try done. repeat constructor. }
  destruct ds as [|dy ds]; [done|]. cbn in Hds. injection Hds as Hy Hds.
  apply StronglySorted_inv in Hsorted as [Hsorted Hall].
  cbn [Py.insert_by]. rewrite Hy, He. cbn [Py.lt mbind result_bind].
  destruct (String.ltb dy d) eqn:Hlt.
  - destruct (IH ds Hds Hsorted) as (evs' & -> & Hperm & Hs' & Hst).
    exists (y :: evs'). cbn. repeat split.
    + rewrite Hperm. apply Permutation_swap.
    + constructor; [done|]. rewrite Hperm. constructor; [|done].
      unfold date_le. rewrite Hy, He. by apply string_ltb_leb.
    + intros k. rewrite ?filter_cons, Hst, ?filter_cons.
      destruct (decide (has_date k y)) as [Hky|Hky],
               (decide (has_date k e)) as [Hke|Hke]; try done.
      unfold has_date in *. rewrite Hy in Hky. rewrite He in Hke.
      simplify_eq. by rewrite string_ltb_irrefl in Hlt.
  - exists (e :: y :: evs). repeat split; try done.
    apply string_ltb_false in Hlt.
    assert (Hey : date_le e y) by (unfold date_le; by rewrite He, Hy).
    constructor; [by constructor|]. constructor; [done|].
    eapply Forall_impl; [exact Hall|]. intros z. by apply date_le_trans.
Qed.

Lemma sort_by_dates evs ds :
  Event.date <$> evs = VStr <$> ds ->
  exists evs',
    Py.sort_by Event.date evs = Ok evs' /\
    evs' ≡ₚ evs /\
    StronglySorted date_le evs' /\
    forall k, filter (has_date k) evs' = filter (has_date k) evs.
Proof.
  revert ds. induction evs as [|e evs IH]; intros ds Hds.
  { exists []. repeat split; try done. constructor. }
  destruct ds as [|d ds]; [done|]. cbn in Hds. injection Hds as He Hds.
  destruct (IH ds Hds) as (sorted & Hrun & Hperm & Hsorted & Hst).
  assert (exists ds', Event.date <$> sorted = VStr <$> ds') as [ds' Hds'].
  { exists ((fun e => match Event.date e with VStr x => x | _ => "" end) <$> sorted).
    rewrite <- list_fmap_compose. apply list_fmap_ext.
    intros i x Hx. cbn.
    assert (x ∈ evs) as Hin by (rewrite <- Hperm; by eapply list_elem_of_lookup_2).
    assert (Event.date x ∈ VStr <$> ds) as Hd
      by (rewrite <- Hds; by apply list_elem_of_fmap_2).
    apply list_elem_of_fmap in Hd as (dx & -> & _). done. }
  destruct (insert_by_dates e sorted d ds' He Hds' Hsorted)
    as (evs' & Hins & Hperm' & Hsorted' & Hst').
  exists evs'. cbn [Py.sort_by]. rewrite Hrun. cbn [mbind result_bind].
  repeat split; try done.
  - by rewrite Hperm', Hperm.
  - intros k. rewrite Hst', ?filter_cons, Hst. done.
Qed.
End SortByDate.

(** ** Identifiers of a store whose ids are integers *)

Section Ids.
Import Diary.
Implicit Types (s : state) (zs : list Z).

Lemma foldl_max_ge zs z : z <= foldl Z.max z zs.
Proof.
  revert z. induction zs as [|y zs IH]; intros z; cbn; [lia|].
  specialize (IH (Z.max z y)). lia.
Qed.

Lemma foldl_max_bound zs z y : y ∈ zs -> y <= foldl Z.max z zs.
Proof.
  revert z. induction zs as [|x zs IH]; intros z; [by intros ?%elem_of_nil|].
  intros [->|Hy]%elem_of_cons; cbn.
  - pose proof (foldl_max_ge zs (Z.max z x)). lia.
  - by apply IH.
Qed.

Lemma foldl_max_elem zs z : foldl Z.max z zs ∈ z :: zs.
Proof.
  revert z. induction zs as [|x zs IH]; intros z; cbn; [by left|].
  specialize (IH (Z.max z x)).
  apply elem_of_cons in IH as [->|IH].
  - destruct (Z.max_spec z x) as [[_ ->]|[_ ->]]; [right; by left|by left].
  - right. by right.
Qed.

Lemma next_id_above zs z : z ∈ zs -> z < next_id zs.
Proof.
  destruct zs as [|x zs]; [by intros ?%elem_of_nil|].
  intros [->|Hz]%elem_of_cons; cbn.
  - pose proof (foldl_max_ge zs x). lia.
  - pose proof (foldl_max_bound zs x z Hz). lia.
Qed.

Lemma next_id_attained zs : zs <> [] -> next_id zs - 1 ∈ zs.
Proof.
  destruct zs as [|x zs]; [done|]. intros _. cbn.
  replace (foldl Z.max x zs + 1 - 1) with (foldl Z.max x zs) by lia.
  apply foldl_max_elem.
Qed.

Lemma max_from_ints z zs :
  Py.max_from (VInt z) (VInt <$> zs) = Ok (VInt (foldl Z.max z zs)).
Proof.
  revert z. induction zs as [|y zs IH]; intros z; cbn; [done|].
  destruct (Z.ltb_spec z y).
  - rewrite IH. by rewrite Z.max_r by lia.
  - rewrite IH. by rewrite Z.max_l by lia.
Qed.

Lemma generate_id_ints s zs :
  Event.id <$> events s = VInt <$> zs ->
  _generate_id s = Ok (VInt (next_id zs), s).
Proof.
  intros Hids. unfold _generate_id, mbind, M_bind; cbn.
  destruct (events s) as [|e rest], zs as [|z zs]; try done.
  cbn in Hids. injection Hids as -> ->.
  unfold lift. by rewrite max_from_ints.
Qed.

Lemma first_with_id_fresh evs zs z e :
  Event.id <$> evs = VInt <$> zs ->
  (forall y, y ∈ zs -> y <> z) ->
  Event.id e = VInt z ->
  first_with_id (VInt z) (evs ++ [e]) = Some (length evs, e).
Proof.
  intros Hids Hfresh He. apply first_with_id_Some. repeat split.
  - by apply list_lookup_middle.
  - rewrite He. cbn. apply Z.eqb_refl.
  - intros j e' Hj Hlt. rewrite lookup_app_l in Hj by done.
    assert (Event.id e' ∈ VInt <$> zs) as (y & -> & Hy)%list_elem_of_fmap.
    { rewrite <- Hids. apply list_elem_of_fmap_2. by eapply list_elem_of_lookup_2. }
    cbn. apply Z.eqb_neq. by apply Hfresh.
Qed.
End Ids.

(** ** Records and the file *)

Section Persistence.
Import Diary.
Implicit Types (s : state) (evs : list Event.t) (d : list (string * value)).

Lemma from_dict_to_dict (e : Event.t) : Event.from_dict (Event.to_dict e) = Ok e.
Proof. by destruct e. Qed.

Lemma mapM_from_dict_to_dict evs :
  mapM Event.from_dict (Event.to_dict <$> evs) = Ok evs.
Proof.
  induction evs as [|e evs IH]; [done|].
  cbn [fmap list_fmap mapM]. fold (fmap (M:=list) Event.to_dict evs).
  rewrite from_dict_to_dict. cbn [mbind result_bind]. by rewrite IH.
Qed.

Lemma from_dict_record_ok v : record_ok v -> exists e, Event.from_dict v = Ok e.
Proof.
  intros (d & -> & Hk). unfold required_keys in Hk.
  repeat (apply Forall_cons in Hk as [[? ?] Hk]).
  unfold Event.from_dict, Py.getitem, Py.get.
  repeat match goal with H : Py.dict_lookup _ _ = Some _ |- _ => rewrite H; clear H end.
  cbn. eauto.
Qed.

Lemma mapM_from_dict_ok (l : list value) :
  Forall record_ok l -> exists evs, mapM Event.from_dict l = Ok evs.
Proof.
  induction 1 as [|v l Hv _ [evs IH]]; [by exists []|].
  destruct (from_dict_record_ok v Hv) as [e He].
  exists (e :: evs). cbn [mapM]. rewrite He. cbn [mbind result_bind]. by rewrite IH.
Qed.

Lemma load_events_absent s :
  file s = None -> load_events s = Ok (PyNone, mkState [] None (printed s)).
Proof. destruct s as [evs f out]; cbn. by intros ->. Qed.

Lemma load_events_valid s c :
  file s = Some c -> valid_document c ->
  exists evs, load_events s = Ok (PyNone, mkState evs (Some c) (printed s)).
Proof.
  intros Hf (l & -> & Hl). destruct (mapM_from_dict_ok l Hl) as [evs Hevs].
  exists evs. destruct s as [evs0 f out]; cbn in *. subst f.
  unfold load_events, mbind, M_bind, lift; cbn. by rewrite Hevs.
Qed.
End Persistence.

(** C2. Saving and then loading reproduces the collection: [save_events]
    succeeds and writes a file from which [load_events], whatever list is
    in memory when it starts, rebuilds the events that were saved (same id,
    title, importance, date and completed values) in the same order,
    whatever the events hold. *)
Theorem save_then_load_roundtrip (s : Diary.state) :
  exists s1,
    Diary.save_events s = Ok (PyNone, s1) /\
    Diary.events s1 = Diary.events s /\
    forall evs0 out,
      Diary.load_events (Diary.mkState evs0 (Diary.file s1) out) =
        Ok (PyNone, Diary.mkState (Diary.events s) (Diary.file s1) out).
Proof.
  eexists. split; [apply save_events_run|]. split; [done|].
  intros evs0 out.
  unfold Diary.load_events, mbind, Diary.M_bind, Diary.lift; cbn.
  by rewrite mapM_from_dict_to_dict.
Qed.

(** C7 fails on the code: a record whose keys are all there but hold
    values of the wrong type (a string as id, a number as title, [None]
    as importance, a list as date) is turned into an [Event] and nothing
    is raised. *)
Lemma from_dict_accepts_wrong_types :
  Event.from_dict
    (VDict [("id", VStr "seven"); ("title", VInt 3);
            ("importance", VNone); ("date", VList [])])
  = Ok (Event.init (VStr "seven") (VInt 3) VNone (VList []) (VBool false)).
Proof. reflexivity. Qed.

(** C7, amended. For every mapping: when the keys id, title, importance
    and date are present, [from_dict] returns the [Event] holding their
    values as they are, of whatever type, with the value under 'completed',
    or [False] when that key is absent; when one of the four keys is
    missing, it raises [KeyError] for a missing key. *)
Theorem from_dict_spec (d : list (string * value)) :
  (forall a b c e,
     Py.dict_lookup "id" d = Some a ->
     Py.dict_lookup "title" d = Some b ->
     Py.dict_lookup "importance" d = Some c ->
     Py.dict_lookup "date" d = Some e ->
     Event.from_dict (VDict d) =
       Ok (Event.init a b c e (default (VBool false) (Py.dict_lookup "completed" d))) /\
     (Py.dict_lookup "completed" d = None ->
      exists ev, Event.from_dict (VDict d) = Ok ev /\ Event.completed ev = VBool false)) /\
  (forall k, k ∈ required_keys -> Py.dict_lookup k d = None ->
     exists k', k' ∈ required_keys /\ Py.dict_lookup k' d = None /\
       Event.from_dict (VDict d) = Raise (KeyError k')).
Proof.
  split.
  - intros a b c e Ha Hb Hc He.
    assert (Event.from_dict (VDict d) =
      Ok (Event.init a b c e (default (VBool false) (Py.dict_lookup "completed" d)))) as Hrun.
    { unfold Event.from_dict, Py.getitem, Py.get. by rewrite Ha, Hb, Hc, He. }
    split; [done|]. intros Hn. eexists. split; [exact Hrun|]. cbn. by rewrite Hn.
  - intros k Hk Hnone. unfold Event.from_dict, Py.getitem, Py.get, required_keys in *.
    destruct (Py.dict_lookup "id" d) eqn:H1;
      [|exists "id"; repeat split; [repeat constructor|done..]].
    destruct (Py.dict_lookup "title" d) eqn:H2;
      [|exists "title"; repeat split; [repeat constructor|done..]].
    destruct (Py.dict_lookup "importance" d) eqn:H3;
      [|exists "importance"; repeat split; [repeat constructor|done..]].
    destruct (Py.dict_lookup "date" d) eqn:H4;
      [|exists "date"; repeat split; [repeat constructor|done..]].
    exfalso. repeat (apply elem_of_cons in Hk as [->|Hk]; [congruence|]).
    by apply elem_of_nil in Hk.
Qed.

(** C9. When the file does not exist [load_events] leaves an empty list
    and raises nothing; it raises only when the file exists and does not
    hold a list of records with the required keys, and text that is not
    JSON is refused with the parser's error. *)
Theorem load_events_spec (s : Diary.state) :
  (Diary.file s = None ->
     Diary.load_events s = Ok (PyNone, Diary.mkState [] None (Diary.printed s))) /\
  (forall e, Diary.load_events s = Raise e ->
     exists c, Diary.file s = Some c /\ ~ valid_document c) /\
  (Diary.file s = Some Diary.NotJson ->
     Diary.load_events s = Raise JSONDecodeError).
Proof.
  repeat split.
  - apply load_events_absent.
  - intros e Hraise. destruct (Diary.file s) as [c|] eqn:Hf.
    + exists c. split; [done|]. intros Hvalid.
      destruct (load_events_valid s c Hf Hvalid) as [evs Hok]. congruence.
    + rewrite (load_events_absent s Hf) in Hraise. done.
  - destruct s as [evs f out]; cbn. by intros ->.
Qed.

Lemma from_dict_spec_witness :
  Event.from_dict
    (VDict [("id", VInt 1); ("title", VStr "Meeting");
            ("importance", VStr "High"); ("date", VStr "2024-06-01")])
  = Ok (Event.init (VInt 1) (VStr "Meeting") (VStr "High") (VStr "2024-06-01")
          (VBool false))
  /\ exists k, k ∈ required_keys /\
       Py.dict_lookup k [("id", VInt 1); ("title", VStr "Meeting")] = None /\
       Event.from_dict (VDict [("id", VInt 1); ("title", VStr "Meeting")])
       = Raise (KeyError k).
Proof.
  split.
  - exact (proj1 (proj1 (from_dict_spec
             [("id", VInt 1); ("title", VStr "Meeting");
              ("importance", VStr "High"); ("date", VStr "2024-06-01")])
           (VInt 1) (VStr "Meeting") (VStr "High") (VStr "2024-06-01")
           eq_refl eq_refl eq_refl eq_refl)).
  - apply (proj2 (from_dict_spec [("id", VInt 1); ("title", VStr "Meeting")]) "date");
      [repeat constructor|reflexivity].
Defined.

Lemma load_events_spec_witness :
  Diary.load_events (Diary.mkState [] None []) = Ok (PyNone, Diary.mkState [] None [])
  /\ Diary.load_events (Diary.mkState [] (Some Diary.NotJson) []) = Raise JSONDecodeError.
Proof.
  split.
  - exact (proj1 (load_events_spec (Diary.mkState [] None [])) eq_refl).
  - exact (proj2 (proj2 (load_events_spec (Diary.mkState [] (Some Diary.NotJson) []))) eq_refl).
Defined.

(** The scenario of a first session: no file, one event added, marked and
    deleted again; the file ends up holding an empty list. *)
Example first_session :
  let meeting c := Event.init (VInt 1) (VStr "Meeting") (VStr "High")
                     (VStr "2024-06-01") (VBool c) in
  exists s0 s1 s2 s3,
    Diary.init None = Ok (PyNone, s0) /\ Diary.events s0 = [] /\
    Diary.add_event (VStr "Meeting") (VStr "High") (VStr "2024-06-01") s0
      = Ok (PyNone, s1) /\
    Diary.events s1 = [meeting false] /\ Diary.file s1 = saved [meeting false] /\
    Diary.mark_completed (VInt 1) s1 = Ok (PyNone, s2) /\
    Diary.events s2 = [meeting true] /\
    Diary.delete_event (VInt 1) s2 = Ok (PyNone, s3) /\
    Diary.events s3 = [] /\ Diary.file s3 = Some (Diary.Json (VList [])).
Proof.
  intros meeting.
  exists (Diary.mkState [] None []),
    (Diary.mkState [meeting false] (saved [meeting false]) [Diary.MsgAdded]),
    (Diary.mkState [meeting true] (saved [meeting true])
       [Diary.MsgAdded; Diary.MsgCompleted]),
    (Diary.mkState [] (saved []) [Diary.MsgAdded; Diary.MsgCompleted; Diary.MsgDeleted]).
  repeat split; reflexivity.
Qed.

(** ** Adding *)

(** C1 fails on the code. In a store with ids 1, 3 and 5, deleting the
    event with the maximum id 5 and adding again gives the new event the id
    4, not 5; and [add_event] hands back [None], not the event it made. *)
Lemma add_after_delete_max_counterexample :
  let ev n := Event.init (VInt n) (VStr "t") (VStr "Low") (VStr "2024-01-01") (VBool false) in
  let s := Diary.mkState [ev 1; ev 3; ev 5] None [] in
  exists s1 s2 r new,
    Diary.delete_event (VInt 5) s = Ok (PyNone, s1) /\
    Diary.add_event (VStr "u") (VStr "Low") (VStr "2024-01-02") s1 = Ok (r, s2) /\
    Diary.events s2 = [ev 1; ev 3; new] /\
    Event.id new = VInt 4 /\ Event.id new <> VInt 5 /\
    r = PyNone /\ r <> Inst new.
Proof.
  intros ev s.
  set (new := Event.init (VInt 4) (VStr "u") (VStr "Low") (VStr "2024-01-02") (VBool false)).
  exists (Diary.mkState [ev 1; ev 3] (saved [ev 1; ev 3]) [Diary.MsgDeleted]),
         (Diary.mkState [ev 1; ev 3; new] (saved [ev 1; ev 3; new])
            [Diary.MsgDeleted; Diary.MsgAdded]),
         PyNone, new.
  repeat split; try reflexivity; discriminate.
Qed.

(** C1, amended. For every store whose ids are integers, [add_event]
    appends exactly one event, whose completed flag is false and whose id
    is [max(existing ids) + 1] (1 for an empty store), writes the whole
    collection to the file, prints the confirmation and returns [None].
    Deleting the event just added and adding again assigns the same id
    once more. *)
Theorem add_event_assigns_next_id (s : Diary.state) (title importance date : value)
    (zs : list Z) :
  Event.id <$> Diary.events s = VInt <$> zs ->
  let new := Event.init (VInt (next_id zs)) title importance date (VBool false) in
  let s1 := Diary.mkState (Diary.events s ++ [new]) (saved (Diary.events s ++ [new]))
              (Diary.printed s ++ [Diary.MsgAdded]) in
  Diary.add_event title importance date s = Ok (PyNone, s1) /\
  exists s2,
    Diary.delete_event (VInt (next_id zs)) s1 = Ok (PyNone, s2) /\
    Diary.events s2 = Diary.events s /\
    forall t i d, exists s3,
      Diary.add_event t i d s2 = Ok (PyNone, s3) /\
      Diary.events s3 =
        Diary.events s ++ [Event.init (VInt (next_id zs)) t i d (VBool false)].
Proof.
  intros Hids new s1. split.
  { by rewrite (add_event_run _ _ _ _ _ (generate_id_ints s zs Hids)). }
  assert (first_with_id (VInt (next_id zs)) (Diary.events s1)
          = Some (length (Diary.events s), new)) as Hfind.
  { apply (first_with_id_fresh _ zs); [done| |done].
    intros y Hy ->. pose proof (next_id_above _ _ Hy). lia. }
  eexists. split; [apply (delete_event_found _ _ _ _ Hfind)|].
  cbn. rewrite (delete_middle _ [] new), app_nil_r. split; [done|].
  intros t i d. eexists. split.
  - apply (add_event_run t i d _ (VInt (next_id zs))). by apply generate_id_ints.
  - reflexivity.
Qed.

Lemma add_event_assigns_next_id_witness :
  let ev n := Event.init (VInt n) (VStr "t") (VStr "Low") (VStr "2024-01-01") (VBool false) in
  let new := Event.init (VInt 6) (VStr "Meeting") (VStr "High") (VStr "2024-06-01") (VBool false) in
  Diary.add_event (VStr "Meeting") (VStr "High") (VStr "2024-06-01")
    (Diary.mkState [ev 1; ev 3; ev 5] None [])
  = Ok (PyNone, Diary.mkState [ev 1; ev 3; ev 5; new] (saved [ev 1; ev 3; ev 5; new])
                  [Diary.MsgAdded]).
Proof.
  intros ev new.
  exact (proj1 (add_event_assigns_next_id (Diary.mkState [ev 1; ev 3; ev 5] None [])
                  (VStr "Meeting") (VStr "High") (VStr "2024-06-01") [1; 3; 5] eq_refl)).
Defined.

(** ** Editing, completing and deleting the event found by id *)

Section Found.
Import Diary.
Implicit Types (s : state) (evs : list Event.t) (n : value).


Lemma insert_frame evs ref (new : Event.t) :
  (forall j, j <> ref -> <[ref := new]> evs !! j = evs !! j) /\
  length (<[ref := new]> evs) = length evs.
Proof.
  split; [|apply length_insert].
  intros j Hj. by apply list_lookup_insert_ne.
Qed.
End Found.

(** C3. When the store has an event with the given id, [edit_event]
    changes the first such event only: each of title, importance and date
    that is given and non-empty replaces the old value, each that is [None]
    or empty leaves the old value, id and completed stay, every other
    position of the list is as before, and the result is written to the
    file. *)
Theorem edit_event_partial_update (s : Diary.state) (n title importance date : value)
    (e : Event.t) :
  e ∈ Diary.events s -> Py.eq (Event.id e) n = true ->
  exists ref old new s',
    first_with_id n (Diary.events s) = Some (ref, old) /\
    Diary.edit_event n title importance date s = Ok (PyNone, s') /\
    Diary.events s' = <[ref := new]> (Diary.events s) /\
    Diary.file s' = saved (Diary.events s') /\
    Event.title new = (if Py.truthy title then title else Event.title old) /\
    Event.importance new =
      (if Py.truthy importance then importance else Event.importance old) /\
    Event.date new = (if Py.truthy date then date else Event.date old) /\
    Event.id new = Event.id old /\
    Event.completed new = Event.completed old /\
    (forall j, j <> ref -> Diary.events s' !! j = Diary.events s !! j) /\
    length (Diary.events s') = length (Diary.events s).
Proof.
  intros He Hid. destruct (first_with_id_elem n _ e He Hid) as (ref & old & Hf).
  exists ref, old. do 2 eexists. split; [done|].
  split; [apply (edit_event_found _ _ _ _ _ _ _ Hf)|].
  cbn. repeat split; try done; apply insert_frame.
Qed.

(** [edit(id, title="X")]: only the title changes. *)
Lemma edit_event_partial_update_witness :
  let old := Event.init (VInt 2) (VStr "Dentist") (VStr "High") (VStr "2024-03-05") (VBool true) in
  let other := Event.init (VInt 1) (VStr "Shop") (VStr "Low") (VStr "2024-03-01") (VBool false) in
  exists ref old' new s',
    first_with_id (VInt 2) [other; old] = Some (ref, old') /\
    Diary.edit_event (VInt 2) (VStr "X") VNone VNone (Diary.mkState [other; old] None [])
      = Ok (PyNone, s') /\
    Diary.events s' = <[ref := new]> [other; old] /\
    Diary.file s' = saved (Diary.events s') /\
    Event.title new = VStr "X" /\
    Event.importance new = Event.importance old' /\
    Event.date new = Event.date old' /\
    Event.id new = Event.id old' /\
    Event.completed new = Event.completed old' /\
    (forall j, j <> ref -> Diary.events s' !! j = [other; old] !! j) /\
    length (Diary.events s') = 2%nat.
Proof.
  intros old other.
  apply (edit_event_partial_update (Diary.mkState [other; old] None [])
           (VInt 2) (VStr "X") VNone VNone old).
  - cbn. apply list_elem_of_further, list_elem_of_here.
  - reflexivity.
Defined.

(** C5 fails on the code: [delete_event] hands back [None] both when the
    id is found and when it is not, never [True] or [False]; what happened
    is told by the line it prints. *)
Lemma delete_event_returns_none_counterexample :
  let ev := Event.init (VInt 1) (VStr "t") (VStr "Low") (VStr "2024-01-01") (VBool false) in
  let s := Diary.mkState [ev] None [] in
  (exists s', Diary.delete_event (VInt 1) s = Ok (PyNone, s') /\
              Diary.events s' = [] /\ PyNone <> Val (VBool true)) /\
  (exists s', Diary.delete_event (VInt 2) s = Ok (PyNone, s') /\
              Diary.events s' = [ev] /\ PyNone <> Val (VBool false)).
Proof.
  intros ev s. split.
  - exists (Diary.mkState [] (saved []) [Diary.MsgDeleted]).
    split; [reflexivity|split; [reflexivity|discriminate]].
  - exists (Diary.mkState [ev] None [Diary.MsgNotFound]).
    split; [reflexivity|split; [reflexivity|discriminate]].
Qed.

(** C5, amended. When no event has the given id, [delete_event] prints
    the not-found line and changes neither the list nor the file; when
    some event has it, the first such event is removed, the result is
    written to the file and the deletion is printed. It returns [None] in
    both cases. *)
Theorem delete_event_spec (s : Diary.state) (n : value) :
  ((forall e, e ∈ Diary.events s -> Py.eq (Event.id e) n = false) ->
     Diary.delete_event n s =
       Ok (PyNone, Diary.mkState (Diary.events s) (Diary.file s)
                     (Diary.printed s ++ [Diary.MsgNotFound]))) /\
  (forall e, e ∈ Diary.events s -> Py.eq (Event.id e) n = true ->
     exists ref old,
       first_with_id n (Diary.events s) = Some (ref, old) /\
       Diary.delete_event n s =
         Ok (PyNone, Diary.mkState (delete ref (Diary.events s))
                       (saved (delete ref (Diary.events s)))
                       (Diary.printed s ++ [Diary.MsgDeleted]))).
Proof.
  split.
  - intros Hmiss. apply delete_event_missing. by apply first_with_id_None.
  - intros e He Hid. destruct (first_with_id_elem n _ e He Hid) as (ref & old & Hf).
    exists ref, old. split; [done|]. apply (delete_event_found _ _ _ _ Hf).
Qed.

Lemma delete_event_spec_witness :
  let ev n := Event.init (VInt n) (VStr "t") (VStr "Low") (VStr "2024-01-01") (VBool false) in
  let s := Diary.mkState [ev 1; ev 2] (saved [ev 1; ev 2]) [] in
  Diary.delete_event (VInt 7) s
    = Ok (PyNone, Diary.mkState [ev 1; ev 2] (saved [ev 1; ev 2]) [Diary.MsgNotFound]) /\
  exists ref old,
    first_with_id (VInt 2) [ev 1; ev 2] = Some (ref, old) /\
    Diary.delete_event (VInt 2) s
      = Ok (PyNone, Diary.mkState (delete ref [ev 1; ev 2])
                      (saved (delete ref [ev 1; ev 2])) [Diary.MsgDeleted]).
Proof.
  intros ev s. split.
  - apply (proj1 (delete_event_spec s (VInt 7))).
    intros e He. cbn in He.
    apply elem_of_cons in He as [->|He]; [reflexivity|].
    apply elem_of_cons in He as [->|He]; [reflexivity|].
    by apply elem_of_nil in He.
  - apply (proj2 (delete_event_spec s (VInt 2)) (ev 2)).
    + cbn. apply list_elem_of_further, list_elem_of_here.
    + reflexivity.
Defined.




(** C10. When the store has an event with the given id, [mark_completed]
    changes nothing but the completed flag of the first such event: its
    id, title, importance and date, every other position of the list, and
    the length of the list are as before. *)
Theorem mark_completed_frame (s : Diary.state) (n : value) (e : Event.t) :
  e ∈ Diary.events s -> Py.eq (Event.id e) n = true ->
  exists ref old new s',
    first_with_id n (Diary.events s) = Some (ref, old) /\
    Diary.mark_completed n s = Ok (PyNone, s') /\
    Diary.events s' !! ref = Some new /\
    Event.id new = Event.id old /\
    Event.title new = Event.title old /\
    Event.importance new = Event.importance old /\
    Event.date new = Event.date old /\
    (forall j, j <> ref -> Diary.events s' !! j = Diary.events s !! j) /\
    length (Diary.events s') = length (Diary.events s).
Proof.
  intros He Hid. destruct (first_with_id_elem n _ e He Hid) as (ref & old & Hf).
  pose proof Hf as (Hl & _ & _)%first_with_id_Some.
  pose proof (lookup_lt_Some _ _ _ Hl) as Hlt.
  exists ref, old. do 2 eexists. split; [done|].
  split; [apply (mark_completed_found _ _ _ _ Hf)|].
  cbn. split; [by apply list_lookup_insert_eq|].
  repeat split; try done; apply insert_frame.
Qed.

Lemma mark_completed_frame_witness :
  let ev n := Event.init (VInt n) (VStr "t") (VStr "Low") (VStr "2024-01-01") (VBool false) in
  let s := Diary.mkState [ev 1; ev 2; ev 3] None [] in
  exists ref old new s',
    first_with_id (VInt 2) (Diary.events s) = Some (ref, old) /\
    Diary.mark_completed (VInt 2) s = Ok (PyNone, s') /\
    Diary.events s' !! ref = Some new /\
    Event.id new = Event.id old /\
    Event.title new = Event.title old /\
    Event.importance new = Event.importance old /\
    Event.date new = Event.date old /\
    (forall j, j <> ref -> Diary.events s' !! j = Diary.events s !! j) /\
    length (Diary.events s') = length (Diary.events s).
Proof.
  intros ev s. apply (mark_completed_frame s (VInt 2) (ev 2)).
  - cbn. apply list_elem_of_further, list_elem_of_here.
  - reflexivity.
Defined.

(** ** Sorting by date *)

(** C4. On a store whose dates are strings, [sort_events_by_date] puts the
    events in ascending order of the date string (byte-wise lexicographic
    order), keeps the events with equal dates in their former relative
    order, and writes the new order to the file. Events dated 2024-05-01,
    2023-01-10, 2024-05-01 with ids 1, 2, 3 end up in the order 2, 1, 3. *)
Theorem sort_events_by_date_stable (s : Diary.state) (ds : list string) :
  Event.date <$> Diary.events s = VStr <$> ds ->
  (exists sorted,
     Diary.sort_events_by_date s =
       Ok (PyNone, Diary.mkState sorted (saved sorted)
                     (Diary.printed s ++ [Diary.MsgSorted])) /\
     sorted ≡ₚ Diary.events s /\
     StronglySorted date_le sorted /\
     forall k, filter (has_date k) sorted = filter (has_date k) (Diary.events s)) /\
  (forall t1 i1 c1 t2 i2 c2 t3 i3 c3 f out,
     let e1 := Event.init (VInt 1) t1 i1 (VStr "2024-05-01") c1 in
     let e2 := Event.init (VInt 2) t2 i2 (VStr "2023-01-10") c2 in
     let e3 := Event.init (VInt 3) t3 i3 (VStr "2024-05-01") c3 in
     Diary.sort_events_by_date (Diary.mkState [e1; e2; e3] f out) =
       Ok (PyNone, Diary.mkState [e2; e1; e3] (saved [e2; e1; e3])
                     (out ++ [Diary.MsgSorted]))).
Proof.
  intros Hds. split; [|reflexivity].
  destruct (sort_by_dates _ _ Hds) as (sorted & Hrun & Hperm & Hsorted & Hstable).
  exists sorted. split; [by apply sort_events_by_date_run|done].
Qed.

Lemma sort_events_by_date_stable_witness :
  let ev n d := Event.init (VInt n) (VStr "t") (VStr "Low") (VStr d) (VBool false) in
  let s := Diary.mkState [ev 1 "2024-05-01"; ev 2 "2023-01-10"; ev 3 "2024-05-01"] None [] in
  exists sorted,
    Diary.sort_events_by_date s =
      Ok (PyNone, Diary.mkState sorted (saved sorted) [Diary.MsgSorted]) /\
    sorted ≡ₚ Diary.events s /\
    StronglySorted date_le sorted /\
    forall k, filter (has_date k) sorted = filter (has_date k) (Diary.events s).
Proof.
  intros ev s.
  exact (proj1 (sort_events_by_date_stable s ["2024-05-01"; "2023-01-10"; "2024-05-01"]
                  eq_refl)).
Defined.

(** ** Distinct ids *)

Section DistinctIds.
Import Diary.
Implicit Types (s : state) (evs : list Event.t) (n : value).

Lemma lt_numeric_r v w b z :
  Py.lt v w = Ok b -> Py.as_int w = Some z ->
  exists y, Py.as_int v = Some y /\ b = (y <? z).
Proof.
  destruct v as [|c|a|x|l|d]; cbn; try done.
  - intros H Hz. rewrite Hz in H. injection H as <-. eauto.
  - intros H Hz. rewrite Hz in H. injection H as <-. eauto.
  - by destruct w.
  - by destruct w.
Qed.

Lemma lt_numeric_l v w b y :
  Py.lt v w = Ok b -> Py.as_int v = Some y ->
  exists z, Py.as_int w = Some z /\ b = (y <? z).
Proof.
  destruct v as [|c|a|x|l|d]; cbn; try done.
  - intros H [= <-]. destruct (Py.as_int w) as [z|]; [|done].
    injection H as <-. eauto.
  - intros H [= <-]. destruct (Py.as_int w) as [z|]; [|done].
    injection H as <-. eauto.
Qed.

(** A maximum that is a number bounds numbers only. *)
Lemma max_from_numeric (a : value) (rest : list value) m z :
  Py.max_from a rest = Ok m -> Py.as_int m = Some z ->
  forall x, x ∈ a :: rest -> exists y, Py.as_int x = Some y /\ y <= z.
Proof.
  revert a. induction rest as [|item rest IH]; intros a Hmax Hm x Hx.
  { cbn in Hmax. injection Hmax as ->. apply list_elem_of_singleton in Hx as ->.
    exists z. split; [done|lia]. }
  cbn in Hmax. unfold Py.gt in Hmax.
  destruct (Py.lt a item) as [b|] eqn:Hlt; [|done]. cbn in Hmax.
  pose proof (IH _ Hmax Hm) as Hrest.
  assert (exists ya yi, Py.as_int a = Some ya /\ Py.as_int item = Some yi /\
                        ya <= z /\ yi <= z) as (ya & yi & Ha & Hi & ? & ?).
  { destruct b.
    - destruct (Hrest item) as (yi & Hi & ?); [by left|].
      destruct (lt_numeric_r _ _ _ _ Hlt Hi) as (ya & Ha & Hb).
      exists ya, yi. repeat split; try done.
      symmetry in Hb. apply Z.ltb_lt in Hb. lia.
    - destruct (Hrest a) as (ya & Ha & ?); [by left|].
      destruct (lt_numeric_l _ _ _ _ Hlt Ha) as (yi & Hi & Hb).
      exists ya, yi. repeat split; try done.
      symmetry in Hb. apply Z.ltb_ge in Hb. lia. }
  apply elem_of_cons in Hx as [->|Hx]; [by eauto|].
  apply elem_of_cons in Hx as [->|Hx]; [by eauto|].
  apply Hrest. by right.
Qed.

(** Whatever the ids are, an id that [_generate_id] returns is not the id
    of any event of the store. *)
Lemma generate_id_fresh s r :
  _generate_id s = Ok r -> r.2 = s /\ r.1 ∉ Event.id <$> events s.
Proof.
  destruct r as [v s']. unfold _generate_id, mbind, M_bind; cbn.
  destruct (events s) as [|e rest] eqn:Hev; cbn.
  { intros [= <- <-]. split; [done|]. by intros ?%elem_of_nil. }
  unfold lift.
  destruct (Py.max_from (Event.id e) (Event.id <$> rest)) as [m|] eqn:Hmax; [|done].
  unfold Py.add1. destruct (Py.as_int m) as [z|] eqn:Hm; [|done].
  intros [= <- <-]. split; [done|]. intros Hin.
  destruct (max_from_numeric _ _ _ _ Hmax Hm (VInt (z + 1)) Hin) as (y & [= <-] & ?).
  lia.
Qed.

Lemma sort_by_perm {A} (key : A -> value) (l l' : list A) :
  Py.sort_by key l = Ok l' -> l' ≡ₚ l.
Proof.
  assert (Hins : forall x (k k' : list A), Py.insert_by key x k = Ok k' -> k' ≡ₚ x :: k).
  { intros x k. induction k as [|y k IH]; intros k'; cbn.
    - by intros [= <-].
    - destruct (Py.lt (key y) (key x)) as [[]|]; cbn; try done.
      + destruct (Py.insert_by key x k) as [k''|]; cbn; [|done].
        intros [= <-]. rewrite (IH k'' eq_refl). apply Permutation_swap.
      + by intros [= <-]. }
  revert l'. induction l as [|x l IH]; intros l'; cbn.
  - by intros [= <-].
  - destruct (Py.sort_by key l) as [sorted|]; cbn; [|done].
    intros ->%Hins. by rewrite (IH sorted eq_refl).
Qed.

Lemma ids_insert_same evs ref old new :
  evs !! ref = Some old -> Event.id new = Event.id old ->
  Event.id <$> <[ref := new]> evs = Event.id <$> evs.
Proof.
  intros Hl Hid. rewrite list_fmap_insert, Hid.
  apply list_insert_id. by rewrite list_lookup_fmap, Hl.
Qed.
End DistinctIds.

(** C8. If the ids of the store are pairwise distinct, they are pairwise
    distinct in the store that any of the five operations leaves; and on a
    store that follows the data model (integer ids, string dates) each
    operation does leave a store. *)
Theorem run_preserves_distinct_ids (o : Diary.op) (s : Diary.state) :
  NoDup (Event.id <$> Diary.events s) ->
  (forall r s', Diary.run o s = Ok (r, s') -> NoDup (Event.id <$> Diary.events s')) /\
  (forall zs ds,
     Event.id <$> Diary.events s = VInt <$> zs ->
     Event.date <$> Diary.events s = VStr <$> ds ->
     exists r s', Diary.run o s = Ok (r, s')).
Proof.
  intros Hnodup. split.
  - intros r s'. destruct o as [t i d|n t i d|n|n|]; cbn [Diary.run].
    + destruct (Diary._generate_id s) as [[v s0]|e] eqn:Hgen.
      * destruct (generate_id_fresh _ _ Hgen) as [Hs Hfresh]. cbn in Hs, Hfresh. subst s0.
        rewrite (add_event_run _ _ _ _ _ Hgen). cbn. intros [= _ <-]. cbn.
        rewrite fmap_app. apply NoDup_app. repeat split; try done.
        -- intros x Hx ->%list_elem_of_singleton. done.
        -- apply NoDup_singleton.
      * unfold Diary.add_event, mbind, Diary.M_bind. by rewrite Hgen.
    + destruct (first_with_id n (Diary.events s)) as [[ref old]|] eqn:Hf.
      * rewrite (edit_event_found _ _ _ _ _ _ _ Hf). cbn. intros [= _ <-]. cbn.
        apply first_with_id_Some in Hf as (Hl & _).
        by rewrite (ids_insert_same _ _ old).
      * rewrite (edit_event_missing _ _ _ _ _ Hf). by intros [= _ <-].
    + destruct (first_with_id n (Diary.events s)) as [[ref old]|] eqn:Hf.
      * rewrite (delete_event_found _ _ _ _ Hf). cbn. intros [= _ <-]. cbn.
        rewrite list_fmap_delete. eapply sublist_NoDup; [exact Hnodup|apply sublist_delete].
      * rewrite (delete_event_missing _ _ Hf). by intros [= _ <-].
    + destruct (first_with_id n (Diary.events s)) as [[ref old]|] eqn:Hf.
      * rewrite (mark_completed_found _ _ _ _ Hf). cbn. intros [= _ <-]. cbn.
        apply first_with_id_Some in Hf as (Hl & _).
        by rewrite (ids_insert_same _ _ old).
      * rewrite (mark_completed_missing _ _ Hf). by intros [= _ <-].
    + destruct (Py.sort_by Event.date (Diary.events s)) as [sorted|e] eqn:Hsort.
      * rewrite (sort_events_by_date_run _ _ Hsort). intros [= _ <-]. cbn.
        by rewrite (sort_by_perm _ _ _ Hsort).
      * unfold Diary.sort_events_by_date, mbind, Diary.M_bind, Diary.lift; cbn.
        by rewrite Hsort.
  - intros zs ds Hids Hdates. destruct o as [t i d|n t i d|n|n|]; cbn [Diary.run].
    + rewrite (add_event_run _ _ _ _ _ (generate_id_ints s zs Hids)). by eauto.
    + destruct (first_with_id n (Diary.events s)) as [[ref old]|] eqn:Hf.
      * rewrite (edit_event_found _ _ _ _ _ _ _ Hf). by eauto.
      * rewrite (edit_event_missing _ _ _ _ _ Hf). by eauto.
    + destruct (first_with_id n (Diary.events s)) as [[ref old]|] eqn:Hf.
      * rewrite (delete_event_found _ _ _ _ Hf). by eauto.
      * rewrite (delete_event_missing _ _ Hf). by eauto.
    + destruct (first_with_id n (Diary.events s)) as [[ref old]|] eqn:Hf.
      * rewrite (mark_completed_found _ _ _ _ Hf). by eauto.
      * rewrite (mark_completed_missing _ _ Hf). by eauto.
    + destruct (sort_by_dates _ _ Hdates) as (sorted & Hsort & _).
      rewrite (sort_events_by_date_run _ _ Hsort). by eauto.
Qed.

Lemma run_preserves_distinct_ids_witness :
  let ev n := Event.init (VInt n) (VStr "t") (VStr "Low") (VStr "2024-01-01") (VBool false) in
  let s := Diary.mkState [ev 1; ev 2] None [] in
  let o := Diary.Add (VStr "Meeting") (VStr "High") (VStr "2024-06-01") in
  NoDup (Event.id <$> Diary.events s) /\
  exists r s', Diary.run o s = Ok (r, s') /\ NoDup (Event.id <$> Diary.events s').
Proof.
  intros ev s o.
  assert (NoDup (Event.id <$> Diary.events s)) as Hn.
  { cbn. apply NoDup_cons_2; [|apply NoDup_singleton].
    intros H. apply list_elem_of_singleton in H. discriminate H. }
  split; [exact Hn|].
  destruct (run_preserves_distinct_ids o s Hn) as [Hsafe Hlive].
  destruct (Hlive [1; 2] ["2024-01-01"; "2024-01-01"] eq_refl eq_refl) as (r & s' & Hrun).
  exists r, s'. split; [exact Hrun|exact (Hsafe r s' Hrun)].
Defined.

(** * Further properties of the store *)

Section MoreRuns.
Import Diary.
Implicit Types (s : state) (evs : list Event.t) (n : value).

Lemma lt_raises_TypeError : forall v w e, Py.lt v w = Raise e -> e = TypeError.
Proof.
  fix IHv 1. intros [|b|a|x|l|d] w e; cbn.
  - by intros [= <-].
  - destruct (Py.as_int w); [done|by intros [= <-]].
  - destruct (Py.as_int w); [done|by intros [= <-]].
  - destruct w; try done; by intros [= <-].
  - destruct w as [| | | |m|]; try (by intros [= <-]).
    revert m. induction l as [|y l IHl]; intros [|z m]; cbn; try done.
    destruct (Py.eq y z); [apply IHl|apply IHv].
  - by intros [= <-].
Qed.

Lemma max_from_raises_TypeError a rest e :
  Py.max_from a rest = Raise e -> e = TypeError.
Proof.
  revert a. induction rest as [|item rest IH]; intros a; cbn; [done|].
  unfold Py.gt. destruct (Py.lt a item) as [b|e'] eqn:Hlt; cbn.
  - apply IH.
  - intros [= <-]. by eapply lt_raises_TypeError.
Qed.

Lemma add_event_raise title importance date s e :
  _generate_id s = Raise e -> add_event title importance date s = Raise e.
Proof. intros H. unfold add_event, mbind, M_bind. by rewrite H. Qed.

(** What an operation that returns has done. *)
Lemma run_inv o s r s' :
  run o s = Ok (r, s') ->
  r = PyNone /\
  match o with
  | Add t i d =>
      exists v, _generate_id s = Ok (v, s) /\
        events s' = events s ++ [Event.init v t i d (VBool false)] /\
        file s' = saved (events s') /\ printed s' = printed s ++ [MsgAdded]
  | Edit n t i d =>
      (first_with_id n (events s) = None /\
       s' = mkState (events s) (file s) (printed s ++ [MsgNotFound])) \/
      (exists ref old,
         first_with_id n (events s) = Some (ref, old) /\
         events s' = <[ref := Event.init (Event.id old)
                        (if Py.truthy t then t else Event.title old)
                        (if Py.truthy i then i else Event.importance old)
                        (if Py.truthy d then d else Event.date old)
                        (Event.completed old)]> (events s) /\
         file s' = saved (events s') /\ printed s' = printed s ++ [MsgUpdated])
  | Delete n =>
      (first_with_id n (events s) = None /\
       s' = mkState (events s) (file s) (printed s ++ [MsgNotFound])) \/
      (exists ref old,
         first_with_id n (events s) = Some (ref, old) /\
         events s' = delete ref (events s) /\
         file s' = saved (events s') /\ printed s' = printed s ++ [MsgDeleted])
  | MarkCompleted n =>
      (first_with_id n (events s) = None /\
       s' = mkState (events s) (file s) (printed s ++ [MsgNotFound])) \/
      (exists ref old,
         first_with_id n (events s) = Some (ref, old) /\
         events s' = <[ref := Event.set_completed (VBool true) old]> (events s) /\
         file s' = saved (events s') /\ printed s' = printed s ++ [MsgCompleted])
  | SortByDate =>
      Py.sort_by Event.date (events s) = Ok (events s') /\
      file s' = saved (events s') /\ printed s' = printed s ++ [MsgSorted]
  end.
Proof.
  destruct o as [t i d|n t i d|n|n|]; cbn [run].
  - destruct (_generate_id s) as [[v s0]|e] eqn:Hgen;
      [|by rewrite (add_event_raise _ _ _ _ _ Hgen)].
    destruct (generate_id_fresh _ _ Hgen) as [Hs _]. cbn in Hs. subst s0.
    rewrite (add_event_run _ _ _ _ _ Hgen). cbn. intros [= <- <-].
    split; [done|]. by exists v.
  - destruct (first_with_id n (events s)) as [[ref old]|] eqn:Hf.
    + rewrite (edit_event_found _ _ _ _ _ _ _ Hf). cbn. intros [= <- <-].
      split; [done|]. right. by eauto 10.
    + rewrite (edit_event_missing _ _ _ _ _ Hf). intros [= <- <-]. by eauto.
  - destruct (first_with_id n (events s)) as [[ref old]|] eqn:Hf.
    + rewrite (delete_event_found _ _ _ _ Hf). cbn. intros [= <- <-].
      split; [done|]. right. by eauto 10.
    + rewrite (delete_event_missing _ _ Hf). intros [= <- <-]. by eauto.
  - destruct (first_with_id n (events s)) as [[ref old]|] eqn:Hf.
    + rewrite (mark_completed_found _ _ _ _ Hf). cbn. intros [= <- <-].
      split; [done|]. right. by eauto 10.
    + rewrite (mark_completed_missing _ _ Hf). intros [= <- <-]. by eauto.
  - destruct (Py.sort_by Event.date (events s)) as [sorted|e] eqn:Hsort.
    + rewrite (sort_events_by_date_run _ _ Hsort). by intros [= <- <-].
    + unfold sort_events_by_date, mbind, M_bind, lift; cbn. by rewrite Hsort.
Qed.

Lemma eq_numeric v y k : Py.as_int v = Some y -> Py.eq v (VInt k) = (y =? k).
Proof. destruct v; cbn; try done; by intros [= <-]. Qed.

Lemma init_restartable f r s : init f = Ok (r, s) -> restartable s.
Proof.
  unfold restartable. intros H. assert (r = PyNone /\ file s = f /\ printed s = []) as (-> & Hf & Hp).
  { unfold init, load_events, mbind, M_bind, lift in H; cbn in H.
    destruct f as [c|]; cbn in H.
    - destruct (json_load c) as [data|]; [|done]. cbn in H.
      destruct (iter data) as [items|]; [|done]. cbn in H.
      destruct (mapM Event.from_dict items) as [evs|]; [|done]. cbn in H.
      by injection H as <- <-.
    - by injection H as <- <-. }
  rewrite Hf, H. destruct s; cbn in *. by subst.
Qed.

Lemma saved_restartable s : file s = saved (events s) -> restartable s.
Proof.
  intros Hf. unfold restartable, init. rewrite Hf.
  unfold load_events, mbind, M_bind, lift, saved; cbn.
  by rewrite mapM_from_dict_to_dict.
Qed.
End MoreRuns.

(** X1. [get_event_by_id] changes nothing and returns the first event
    whose id equals the argument: an event is returned exactly at the first
    position holding such an id, and [None] exactly when no event of the
    list has it. *)
Theorem get_event_by_id_first_match (s : Diary.state) (n : value) :
  exists found,
    Diary.get_event_by_id n s = Ok (found, s) /\
    (forall ref, found = Some ref <->
       exists e, Diary.events s !! ref = Some e /\ Py.eq (Event.id e) n = true /\
         forall j e', Diary.events s !! j = Some e' -> (j < ref)%nat ->
                      Py.eq (Event.id e') n = false) /\
    (found = None <-> forall e, e ∈ Diary.events s -> Py.eq (Event.id e) n = false).
Proof.
  eexists. split; [apply get_event_by_id_run|]. split.
  - intros ref. destruct (first_with_id n (Diary.events s)) as [[i e]|] eqn:Hf; cbn.
    + split.
      * intros [= <-]. exists e. by apply first_with_id_Some.
      * intros (e0 & Hl & Heq & Hfirst). f_equal.
        apply first_with_id_Some in Hf as (Hl' & Heq' & Hfirst').
        destruct (Nat.lt_total i ref) as [Hlt|[->|Hlt]]; [|done|].
        -- rewrite (Hfirst _ _ Hl' Hlt) in Heq'. done.
        -- rewrite (Hfirst' _ _ Hl Hlt) in Heq. done.
    + split; [done|]. intros (e0 & Hl & Heq & _).
      rewrite first_with_id_None in Hf.
      rewrite (Hf e0) in Heq; [done|]. by eapply list_elem_of_lookup_2.
  - rewrite <- first_with_id_None.
    by destruct (first_with_id n (Diary.events s)).
Qed.

(** X2. [edit_event] and [mark_completed] with an id that no event has
    print the not-found line and change neither the list nor the file. *)
Theorem edit_and_mark_missing_id (s : Diary.state) (n title importance date : value) :
  (forall e, e ∈ Diary.events s -> Py.eq (Event.id e) n = false) ->
  Diary.edit_event n title importance date s =
    Ok (PyNone, Diary.mkState (Diary.events s) (Diary.file s)
                  (Diary.printed s ++ [Diary.MsgNotFound])) /\
  Diary.mark_completed n s =
    Ok (PyNone, Diary.mkState (Diary.events s) (Diary.file s)
                  (Diary.printed s ++ [Diary.MsgNotFound])).
Proof.
  intros Hmiss%first_with_id_None. split.
  - by apply edit_event_missing.
  - by apply mark_completed_missing.
Qed.

Lemma edit_and_mark_missing_id_witness :
  let ev := Event.init (VInt 1) (VStr "t") (VStr "Low") (VStr "2024-01-01") (VBool false) in
  let s := Diary.mkState [ev] (saved [ev]) [] in
  Diary.edit_event (VInt 9) (VStr "X") (VStr "High") (VStr "2024-02-02") s =
    Ok (PyNone, Diary.mkState [ev] (saved [ev]) [Diary.MsgNotFound]) /\
  Diary.mark_completed (VInt 9) s =
    Ok (PyNone, Diary.mkState [ev] (saved [ev]) [Diary.MsgNotFound]).
Proof.
  intros ev s.
  apply (edit_and_mark_missing_id s (VInt 9) (VStr "X") (VStr "High") (VStr "2024-02-02")).
  intros e He. cbn in He. apply list_elem_of_singleton in He as ->. reflexivity.
Defined.

(** X3. The file follows the memory: a state that [Diary()] produces is
    one from which a fresh [Diary()] on the same file rebuilds the events
    in memory, and every operation that returns keeps it so. *)
Theorem restart_reads_back_memory :
  (forall f r s, Diary.init f = Ok (r, s) -> restartable s) /\
  (forall o s r s', restartable s -> Diary.run o s = Ok (r, s') -> restartable s').
Proof.
  split; [apply init_restartable|].
  intros o s r s' Hs Hrun. apply run_inv in Hrun as [_ Hrun].
  destruct o as [t i d|n t i d|n|n|].
  - destruct Hrun as (v & _ & _ & Hf & _). by apply saved_restartable.
  - destruct Hrun as [[_ ->]|(ref & old & _ & _ & Hf & _)]; [done|by apply saved_restartable].
  - destruct Hrun as [[_ ->]|(ref & old & _ & _ & Hf & _)]; [done|by apply saved_restartable].
  - destruct Hrun as [[_ ->]|(ref & old & _ & _ & Hf & _)]; [done|by apply saved_restartable].
  - destruct Hrun as (_ & Hf & _). by apply saved_restartable.
Qed.

Lemma restart_reads_back_memory_witness :
  let doc := VList [VDict [("id", VInt 4); ("title", VStr "Tax"); ("importance", VStr "High");
                           ("date", VStr "2024-04-30"); ("note", VStr "kept by hand")]] in
  exists s s',
    Diary.init (Some (Diary.Json doc)) = Ok (PyNone, s) /\
    Diary.run (Diary.MarkCompleted (VInt 4)) s = Ok (PyNone, s') /\
    restartable s /\ restartable s'.
Proof.
  intros doc.
  set (ev c := Event.init (VInt 4) (VStr "Tax") (VStr "High") (VStr "2024-04-30") (VBool c)).
  exists (Diary.mkState [ev false] (Some (Diary.Json doc)) []),
         (Diary.mkState [ev true] (saved [ev true]) [Diary.MsgCompleted]).
  assert (restartable (Diary.mkState [ev false] (Some (Diary.Json doc)) [])) as Hs
    by exact (proj1 restart_reads_back_memory (Some (Diary.Json doc)) PyNone
                (Diary.mkState [ev false] (Some (Diary.Json doc)) []) eq_refl).
  split; [reflexivity|]. split; [reflexivity|]. split; [exact Hs|].
  exact (proj2 restart_reads_back_memory (Diary.MarkCompleted (VInt 4))
           (Diary.mkState [ev false] (Some (Diary.Json doc)) []) PyNone
           (Diary.mkState [ev true] (saved [ev true]) [Diary.MsgCompleted]) Hs eq_refl).
Defined.

Section MoreIds.
Import Diary.
Implicit Types (s : state) (evs : list Event.t).

(** The id [_generate_id] returns is an integer above every id of the
    store, all of which are numbers. *)
Lemma generate_id_above s v s0 :
  _generate_id s = Ok (v, s0) ->
  exists z, v = VInt z /\
    forall e, e ∈ events s -> exists y, Py.as_int (Event.id e) = Some y /\ y < z.
Proof.
  unfold _generate_id, mbind, M_bind; cbn.
  destruct (events s) as [|e0 rest] eqn:Hev; cbn.
  { intros [= <- <-]. exists 1. split; [done|]. by intros e ?%elem_of_nil. }
  unfold lift.
  destruct (Py.max_from (Event.id e0) (Event.id <$> rest)) as [m|] eqn:Hmax; [|done].
  unfold Py.add1. destruct (Py.as_int m) as [z|] eqn:Hm; [|done].
  intros [= <- <-]. exists (z + 1). split; [done|]. intros e He.
  destruct (max_from_numeric _ _ _ _ Hmax Hm (Event.id e)) as (y & Hy & ?).
  { change (Event.id e ∈ Event.id <$> e0 :: rest). by apply list_elem_of_fmap_2. }
  exists y. split; [done|lia].
Qed.

Lemma generate_id_non_numeric s e :
  e ∈ events s -> Py.as_int (Event.id e) = None -> _generate_id s = Raise TypeError.
Proof.
  intros He Hnone.
  destruct (_generate_id s) as [[v s0]|err] eqn:Hgen.
  - destruct (generate_id_above _ _ _ Hgen) as (z & _ & Hall).
    destruct (Hall e He) as (y & Hy & _). congruence.
  - f_equal. revert Hgen. unfold _generate_id, mbind, M_bind; cbn.
    destruct (events s) as [|e0 rest]; cbn; [done|]. unfold lift.
    destruct (Py.max_from (Event.id e0) (Event.id <$> rest)) as [m|err'] eqn:Hmax.
    + unfold Py.add1. destruct (Py.as_int m); [done|]. by intros [= <-].
    + intros [= <-]. by eapply max_from_raises_TypeError.
Qed.

Lemma delete_not_elem {A} (l : list A) i x :
  NoDup l -> l !! i = Some x -> x ∉ delete i l.
Proof.
  intros Hnd Hl. pose proof (delete_Permutation l i x Hl) as Hperm.
  rewrite Hperm in Hnd. by apply NoDup_cons_1_1 in Hnd.
Qed.
End MoreIds.

(** X4. If the id of some event is not a number (a string or null taken
    from the file), [add_event] raises [TypeError]. *)
Theorem add_event_non_numeric_id (s : Diary.state) (title importance date : value)
    (e : Event.t) :
  e ∈ Diary.events s -> Py.as_int (Event.id e) = None ->
  Diary.add_event title importance date s = Raise TypeError.
Proof.
  intros He Hnone. apply add_event_raise. by apply (generate_id_non_numeric s e).
Qed.

Lemma add_event_non_numeric_id_witness :
  let s := Diary.mkState
             [Event.init (VInt 1) (VStr "a") (VStr "Low") (VStr "2024-01-01") (VBool false);
              Event.init (VStr "2") (VStr "b") (VStr "Low") (VStr "2024-01-02") (VBool false)]
             None [] in
  Diary.add_event (VStr "c") (VStr "Low") (VStr "2024-01-03") s = Raise TypeError.
Proof.
  intros s.
  apply (add_event_non_numeric_id s _ _ _
           (Event.init (VStr "2") (VStr "b") (VStr "Low") (VStr "2024-01-02") (VBool false))).
  - cbn. apply list_elem_of_further, list_elem_of_here.
  - reflexivity.
Defined.

(** X5. In a store whose ids are all integers or booleans, whenever
    [add_event] returns, the event it appended is the one
    [get_event_by_id] finds under the new id, at the last position: the
    new id equals the id of no older event. *)
Theorem add_event_then_lookup (s : Diary.state) (title importance date : value)
    (r : object) (s' : Diary.state) :
  Forall (fun e => is_Some (Py.as_int (Event.id e))) (Diary.events s) ->
  Diary.add_event title importance date s = Ok (r, s') ->
  exists new,
    Diary.events s' = Diary.events s ++ [new] /\
    Event.title new = title /\ Event.importance new = importance /\
    Event.date new = date /\ Event.completed new = VBool false /\
    (forall e, e ∈ Diary.events s -> Py.eq (Event.id e) (Event.id new) = false) /\
    Diary.get_event_by_id (Event.id new) s' = Ok (Some (length (Diary.events s)), s').
Proof.
  intros _ Hrun. apply (run_inv (Diary.Add title importance date)) in Hrun
    as (_ & v & Hgen & Hev & _).
  destruct (generate_id_above _ _ _ Hgen) as (z & -> & Hall).
  assert (forall e, e ∈ Diary.events s -> Py.eq (Event.id e) (VInt z) = false) as Hnew.
  { intros e He. destruct (Hall e He) as (y & Hy & ?).
    rewrite (eq_numeric _ _ _ Hy). apply Z.eqb_neq. lia. }
  eexists. split; [exact Hev|]. split; [done|]. split; [done|]. split; [done|].
  split; [done|]. split; [exact Hnew|].
  rewrite get_event_by_id_run, Hev. cbn [Event.id].
  assert (first_with_id (VInt z)
            (Diary.events s ++ [Event.init (VInt z) title importance date (VBool false)])
          = Some (length (Diary.events s),
                  Event.init (VInt z) title importance date (VBool false))) as ->; [|done].
  apply first_with_id_Some. repeat split.
  - by apply list_lookup_middle.
  - cbn. apply Z.eqb_refl.
  - intros j e' Hj Hlt. rewrite lookup_app_l in Hj by done.
    apply Hnew. by eapply list_elem_of_lookup_2.
Qed.

Lemma add_event_then_lookup_witness :
  let a := Event.init (VBool true) (VStr "a") (VStr "Low") (VStr "2024-01-01") (VBool false) in
  let b := Event.init (VInt 7) (VStr "b") (VStr "Low") (VStr "2024-01-02") (VBool false) in
  let c := Event.init (VInt 8) (VStr "c") (VStr "Low") (VStr "2024-01-03") (VBool false) in
  let s := Diary.mkState [a; b] None [] in
  let s' := Diary.mkState [a; b; c] (saved [a; b; c]) [Diary.MsgAdded] in
  exists new,
    Diary.events s' = Diary.events s ++ [new] /\
    Event.title new = VStr "c" /\ Event.importance new = VStr "Low" /\
    Event.date new = VStr "2024-01-03" /\ Event.completed new = VBool false /\
    (forall e, e ∈ Diary.events s -> Py.eq (Event.id e) (Event.id new) = false) /\
    Diary.get_event_by_id (Event.id new) s' = Ok (Some (length (Diary.events s)), s').
Proof.
  intros a b c s s'.
  apply (add_event_then_lookup s (VStr "c") (VStr "Low") (VStr "2024-01-03") PyNone s').
  - apply Forall_cons; split; [by eexists|].
    apply Forall_cons; split; [by eexists|]. apply Forall_nil_2.
  - reflexivity.
Defined.

(** X6. In a store whose ids are pairwise distinct integers, after
    [delete_event] has removed the event with an id no event has that id
    any more: a second [delete_event] with it prints the not-found line and
    changes nothing. *)
Theorem delete_event_then_missing (s : Diary.state) (zs : list Z) (z : Z) :
  Event.id <$> Diary.events s = VInt <$> zs -> NoDup zs -> z ∈ zs ->
  exists s1,
    Diary.delete_event (VInt z) s = Ok (PyNone, s1) /\
    length (Diary.events s1) = pred (length (Diary.events s)) /\
    (forall e, e ∈ Diary.events s1 -> Event.id e <> VInt z) /\
    Diary.delete_event (VInt z) s1 =
      Ok (PyNone, Diary.mkState (Diary.events s1) (Diary.file s1)
                    (Diary.printed s1 ++ [Diary.MsgNotFound])).
Proof.
  intros Hids Hnd Hz.
  assert (exists e, e ∈ Diary.events s /\ Py.eq (Event.id e) (VInt z) = true)
    as (e & He & Heq).
  { assert (VInt z ∈ Event.id <$> Diary.events s) as (e & He1 & He2)%list_elem_of_fmap
      by (rewrite Hids; by apply list_elem_of_fmap_2).
    exists e. split; [done|]. rewrite <- He1. cbn. apply Z.eqb_refl. }
  destruct (first_with_id_elem _ _ e He Heq) as (ref & old & Hf).
  pose proof Hf as (Hl & Hold & _)%first_with_id_Some.
  assert (zs !! ref = Some z) as Hzs.
  { assert ((Event.id <$> Diary.events s) !! ref = Some (Event.id old)) as Hi
      by (by rewrite list_lookup_fmap, Hl).
    rewrite Hids, list_lookup_fmap in Hi.
    destruct (zs !! ref) as [y|] eqn:Hy; [|done]. cbn in Hi. injection Hi as Hi.
    rewrite <- Hi in Hold. cbn in Hold. apply Z.eqb_eq in Hold. by subst. }
  assert (forall e', e' ∈ delete ref (Diary.events s) -> Event.id e' <> VInt z) as Hgone.
  { intros e' He' Hid.
    assert (VInt z ∈ Event.id <$> delete ref (Diary.events s)) as Hin
      by (rewrite <- Hid; by apply list_elem_of_fmap_2).
    rewrite list_fmap_delete, Hids, <- list_fmap_delete in Hin.
    apply list_elem_of_fmap in Hin as (y & [= <-] & Hy).
    by apply (delete_not_elem zs ref z). }
  eexists. split; [apply (delete_event_found _ _ _ _ Hf)|]. cbn.
  split; [rewrite length_delete; [lia|by eauto]|]. split; [done|].
  apply delete_event_missing. apply first_with_id_None. intros e' He'. cbn in He'.
  assert (Event.id e' ∈ VInt <$> delete ref zs) as (y & Hy & Hin)%list_elem_of_fmap.
  { rewrite list_fmap_delete, <- Hids, <- list_fmap_delete. by apply list_elem_of_fmap_2. }
  rewrite Hy. cbn. apply Z.eqb_neq. intros ->. by apply (Hgone e' He').
Qed.

Lemma delete_event_then_missing_witness :
  let ev n := Event.init (VInt n) (VStr "t") (VStr "Low") (VStr "2024-01-01") (VBool false) in
  let s := Diary.mkState [ev 1; ev 2] None [] in
  exists s1,
    Diary.delete_event (VInt 2) s = Ok (PyNone, s1) /\
    length (Diary.events s1) = pred (length (Diary.events s)) /\
    (forall e, e ∈ Diary.events s1 -> Event.id e <> VInt 2) /\
    Diary.delete_event (VInt 2) s1 =
      Ok (PyNone, Diary.mkState (Diary.events s1) (Diary.file s1)
                    (Diary.printed s1 ++ [Diary.MsgNotFound])).
Proof.
  intros ev s. apply (delete_event_then_missing s [1; 2] 2); [reflexivity| |].
  - apply NoDup_cons_2; [|apply NoDup_singleton].
    intros H. apply list_elem_of_singleton in H. discriminate H.
  - apply list_elem_of_further, list_elem_of_here.
Defined.

Section MoreSorting.
Import Diary.
Implicit Types (s : state) (evs : list Event.t).

(** A list already in ascending order of its date strings is left as it
    is. *)
Lemma sort_by_sorted evs ds :
  Event.date <$> evs = VStr <$> ds ->
  StronglySorted date_le evs ->
  Py.sort_by Event.date evs = Ok evs.
Proof.
  revert ds. induction evs as [|x evs IH]; intros ds Hds Hsorted; [done|].
  destruct ds as [|dx ds]; [done|]. cbn in Hds. injection Hds as Hx Hds.
  apply StronglySorted_inv in Hsorted as [Hsorted Hall].
  cbn [Py.sort_by]. rewrite (IH ds Hds Hsorted). cbn [mbind result_bind].
  destruct evs as [|y evs]; [done|].
  apply Forall_cons in Hall as [Hxy _]. unfold date_le in Hxy. rewrite Hx in Hxy.
  cbn [Py.insert_by]. rewrite Hx.
  destruct (Event.date y) as [| | |dy| |]; try done. cbn [Py.lt mbind result_bind].
  apply string_ltb_false in Hxy. by rewrite Hxy.
Qed.

Lemma dates_strings evs :
  Forall (fun e => text (Event.date e)) evs <->
  exists ds, Event.date <$> evs = VStr <$> ds.
Proof.
  split.
  - induction 1 as [|e evs [d Hd] _ [ds IH]]; [by exists []|].
    exists (d :: ds). cbn. by rewrite Hd, IH.
  - intros [ds Hds]. revert ds Hds. induction evs as [|e evs IH]; intros ds Hds; [done|].
    destruct ds as [|d ds]; [done|]. cbn in Hds. injection Hds as Hd Hds.
    constructor; [by exists d|by eapply IH].
Qed.
End MoreSorting.

(** X7. Sorting twice is sorting once: on a store whose dates are strings,
    a second [sort_events_by_date] leaves the list and the file as the
    first one left them. *)
Theorem sort_events_by_date_twice (s : Diary.state) (ds : list string) :
  Event.date <$> Diary.events s = VStr <$> ds ->
  exists s1,
    Diary.sort_events_by_date s = Ok (PyNone, s1) /\
    Diary.sort_events_by_date s1 =
      Ok (PyNone, Diary.mkState (Diary.events s1) (Diary.file s1)
                    (Diary.printed s1 ++ [Diary.MsgSorted])).
Proof.
  intros Hds.
  destruct (sort_by_dates _ _ Hds) as (sorted & Hrun & Hperm & Hsorted & _).
  eexists. split; [by apply sort_events_by_date_run|].
  assert (exists ds', Event.date <$> sorted = VStr <$> ds') as [ds' Hds'].
  { apply dates_strings. rewrite Hperm. apply dates_strings. by exists ds. }
  apply sort_events_by_date_run. cbn. by apply (sort_by_sorted _ ds').
Qed.

Lemma sort_events_by_date_twice_witness :
  let ev n d := Event.init (VInt n) (VStr "t") (VStr "Low") (VStr d) (VBool false) in
  let s := Diary.mkState [ev 1 "2024-05-01"; ev 2 "2023-01-10"; ev 3 "2024-05-01"] None [] in
  exists s1,
    Diary.sort_events_by_date s = Ok (PyNone, s1) /\
    Diary.sort_events_by_date s1 =
      Ok (PyNone, Diary.mkState (Diary.events s1) (Diary.file s1)
                    (Diary.printed s1 ++ [Diary.MsgSorted])).
Proof.
  intros ev s.
  exact (sort_events_by_date_twice s ["2024-05-01"; "2023-01-10"; "2024-05-01"] eq_refl).
Defined.

(** X8. Loading a record and saving it again writes exactly the five keys
    of [to_dict]: the values under id, title, importance and date are those
    of the record, completed is the record's or [False] when the record had
    none, and every other key of the record is dropped. *)
Theorem load_then_save_normalises (d : list (string * value)) :
  record_ok (VDict d) ->
  exists e d',
    Event.from_dict (VDict d) = Ok e /\
    Event.to_dict e = VDict d' /\
    d'.*1 = ["id"; "title"; "importance"; "date"; "completed"] /\
    (forall k, k ∈ required_keys -> Py.dict_lookup k d' = Py.dict_lookup k d) /\
    Py.dict_lookup "completed" d' =
      Some (default (VBool false) (Py.dict_lookup "completed" d)).
Proof.
  intros (d0 & [= <-] & Hk). unfold required_keys in Hk.
  apply Forall_cons in Hk as [[a Ha] Hk]. apply Forall_cons in Hk as [[b Hb] Hk].
  apply Forall_cons in Hk as [[c Hc] Hk]. apply Forall_cons in Hk as [[x Hx] _].
  eexists. eexists. split.
  { unfold Event.from_dict, Py.getitem, Py.get. rewrite Ha, Hb, Hc, Hx. reflexivity. }
  split; [reflexivity|]. split; [reflexivity|]. split; [|reflexivity].
  intros k Hin. unfold required_keys in Hin.
  repeat (apply elem_of_cons in Hin as [->|Hin]; [by rewrite ?Ha, ?Hb, ?Hc, ?Hx|]).
  by apply elem_of_nil in Hin.
Qed.

Lemma load_then_save_normalises_witness :
  let d := [("note", VStr "by hand"); ("id", VInt 4); ("title", VStr "Tax");
            ("importance", VStr "High"); ("date", VStr "2024-04-30")] in
  exists e d',
    Event.from_dict (VDict d) = Ok e /\
    Event.to_dict e = VDict d' /\
    d'.*1 = ["id"; "title"; "importance"; "date"; "completed"] /\
    (forall k, k ∈ required_keys -> Py.dict_lookup k d' = Py.dict_lookup k d) /\
    Py.dict_lookup "completed" d' =
      Some (default (VBool false) (Py.dict_lookup "completed" d)).
Proof.
  intros d. apply (load_then_save_normalises d).
  exists d. split; [reflexivity|]. unfold required_keys.
  repeat (apply Forall_cons; split; [eexists; reflexivity|]). apply Forall_nil_2.
Defined.

(** X9. A file whose JSON document is not a list: an empty object and an
    empty string load as an empty diary without any error; a non-empty
    object or string, a number, a boolean and null make [load_events]
    raise [TypeError]. *)
Theorem load_events_not_a_list (evs : list Event.t) (out : list Diary.message)
    (doc : value) :
  let s := Diary.mkState evs (Some (Diary.Json doc)) out in
  match doc with
  | VList _ => True
  | VDict [] | VStr "" =>
      Diary.load_events s = Ok (PyNone, Diary.mkState [] (Some (Diary.Json doc)) out)
  | _ => Diary.load_events s = Raise TypeError
  end.
Proof.
  destruct doc as [|b|z|x|l|d]; cbn; try done.
  - by destruct x.
  - by destruct d as [|[k v] d].
Qed.

(** ** The data model as an invariant *)

Section DataModel.
Import Diary.
Implicit Types (s : state) (evs : list Event.t) (o : op).

Lemma data_model_ids evs :
  Forall data_model evs ->
  exists zs, Event.id <$> evs = VInt <$> zs /\ Forall (fun z => 0 < z) zs.
Proof.
  induction 1 as [|e evs (n & t & i & d & c & Hn & ->) _ (zs & IH & Hpos)].
  - by exists [].
  - exists (n :: zs). cbn. rewrite IH. split; [done|by constructor].
Qed.

Lemma data_model_dates evs :
  Forall data_model evs -> exists ds, Event.date <$> evs = VStr <$> ds.
Proof.
  intros H. apply dates_strings. eapply Forall_impl; [exact H|].
  intros e (n & t & i & d & c & _ & ->). by exists d.
Qed.

Lemma next_id_pos zs : Forall (fun z => 0 < z) zs -> 0 < next_id zs.
Proof.
  destruct zs as [|z zs]; [done|]. intros [Hz _]%Forall_cons.
  pose proof (next_id_above (z :: zs) z (list_elem_of_here _ _)). lia.
Qed.

Lemma run_ids_NoDup o s r s' :
  run o s = Ok (r, s') ->
  NoDup (Event.id <$> events s) -> NoDup (Event.id <$> events s').
Proof.
  intros Hrun Hnd. apply run_inv in Hrun as [_ Hrun].
  destruct o as [t i d|n t i d|n|n|].
  - destruct Hrun as (v & Hgen & -> & _).
    destruct (generate_id_fresh _ _ Hgen) as [_ Hfresh]. cbn in Hfresh.
    rewrite fmap_app. apply NoDup_app. repeat split; try done.
    + intros x Hx ->%list_elem_of_singleton. done.
    + apply NoDup_singleton.
  - destruct Hrun as [[_ ->]|(ref & old & Hf & -> & _)]; [done|].
    apply first_with_id_Some in Hf as (Hl & _). by rewrite (ids_insert_same _ _ old).
  - destruct Hrun as [[_ ->]|(ref & old & Hf & -> & _)]; [done|].
    rewrite list_fmap_delete. eapply sublist_NoDup; [exact Hnd|apply sublist_delete].
  - destruct Hrun as [[_ ->]|(ref & old & Hf & -> & _)]; [done|].
    apply first_with_id_Some in Hf as (Hl & _). by rewrite (ids_insert_same _ _ old).
  - destruct Hrun as (Hsort & _). by rewrite (sort_by_perm _ _ _ Hsort).
Qed.

Lemma run_restartable o s r s' :
  restartable s -> run o s = Ok (r, s') -> restartable s'.
Proof.
  intros Hs Hrun. apply run_inv in Hrun as [_ Hrun].
  destruct o as [t i d|n t i d|n|n|].
  - destruct Hrun as (v & _ & _ & Hf & _). by apply saved_restartable.
  - destruct Hrun as [[_ ->]|(ref & old & _ & _ & Hf & _)]; [done|by apply saved_restartable].
  - destruct Hrun as [[_ ->]|(ref & old & _ & _ & Hf & _)]; [done|by apply saved_restartable].
  - destruct Hrun as [[_ ->]|(ref & old & _ & _ & Hf & _)]; [done|by apply saved_restartable].
  - destruct Hrun as (_ & Hf & _). by apply saved_restartable.
Qed.

Lemma run_returns o s :
  Forall data_model (events s) -> exists r s', run o s = Ok (r, s').
Proof.
  intros Hdm. destruct (data_model_ids _ Hdm) as (zs & Hids & _).
  destruct (data_model_dates _ Hdm) as (ds & Hds).
  destruct o as [t i d|n t i d|n|n|]; cbn [run].
  - rewrite (add_event_run _ _ _ _ _ (generate_id_ints s zs Hids)). by eauto.
  - destruct (first_with_id n (events s)) as [[ref old]|] eqn:Hf.
    + rewrite (edit_event_found _ _ _ _ _ _ _ Hf). by eauto.
    + rewrite (edit_event_missing _ _ _ _ _ Hf). by eauto.
  - destruct (first_with_id n (events s)) as [[ref old]|] eqn:Hf.
    + rewrite (delete_event_found _ _ _ _ Hf). by eauto.
    + rewrite (delete_event_missing _ _ Hf). by eauto.
  - destruct (first_with_id n (events s)) as [[ref old]|] eqn:Hf.
    + rewrite (mark_completed_found _ _ _ _ Hf). by eauto.
    + rewrite (mark_completed_missing _ _ Hf). by eauto.
  - destruct (sort_by_dates _ _ Hds) as (sorted & Hsort & _).
    rewrite (sort_events_by_date_run _ _ Hsort). by eauto.
Qed.

Lemma run_data_model o s r s' :
  Forall data_model (events s) -> text_op o ->
  run o s = Ok (r, s') -> Forall data_model (events s').
Proof.
  intros Hdm Hop Hrun. apply run_inv in Hrun as [_ Hrun].
  destruct o as [t i d|n t i d|n|n|]; cbn in Hop.
  - destruct Hrun as (v & Hgen & -> & _).
    destruct (data_model_ids _ Hdm) as (zs & Hids & Hpos).
    rewrite (generate_id_ints s zs Hids) in Hgen. injection Hgen as <-.
    destruct Hop as ([t' ->] & [i' ->] & [d' ->]).
    apply Forall_app. split; [done|]. apply Forall_singleton.
    exists (next_id zs), t', i', d', false. split; [by apply next_id_pos|done].
  - destruct Hrun as [[_ ->]|(ref & old & Hf & -> & _)]; [done|].
    apply first_with_id_Some in Hf as (Hl & _).
    apply Forall_insert; [done|].
    destruct (proj1 (Forall_lookup _ _) Hdm _ _ Hl) as (m & t0 & i0 & d0 & c0 & Hm & ->).
    destruct Hop as ([t' ->] & [i' ->] & [d' ->]). cbn.
    destruct (negb (String.eqb t' "")), (negb (String.eqb i' "")),
             (negb (String.eqb d' "")); by repeat eexists.
  - destruct Hrun as [[_ ->]|(ref & old & Hf & -> & _)]; [done|].
    by apply Forall_delete.
  - destruct Hrun as [[_ ->]|(ref & old & Hf & -> & _)]; [done|].
    apply first_with_id_Some in Hf as (Hl & _).
    apply Forall_insert; [done|].
    destruct (proj1 (Forall_lookup _ _) Hdm _ _ Hl) as (m & t0 & i0 & d0 & c0 & Hm & ->).
    by repeat eexists.
  - destruct Hrun as (Hsort & _). by rewrite (sort_by_perm _ _ _ Hsort).
Qed.

Lemma run_store_ok o s :
  store_ok s -> text_op o ->
  exists r s', run o s = Ok (r, s') /\ store_ok s'.
Proof.
  intros [Hdm Hnd] Hop. destruct (run_returns o s Hdm) as (r & s' & Hrun).
  exists r, s'. split; [done|]. split.
  - by eapply run_data_model.
  - by eapply run_ids_NoDup.
Qed.
End DataModel.

Section Writing.
Import Diary.
Implicit Types (s : state) (evs : list Event.t) (o : op) (k : nat).

Lemma writable_data_model k e : writable k e -> data_model e.
Proof. intros (n & t & i & d & c & Hn & _ & _ & _ & _ & ->). by exists n, t, i, d, c. Qed.

Lemma writable_mono k k' e : (k' <= k)%nat -> writable k e -> writable k' e.
Proof.
  intros Hle (n & t & i & d & c & Hn & Hlim & Ht & Hi & Hd & ->).
  exists n, t, i, d, c. repeat split; try done. lia.
Qed.

Lemma store_writable_mono k k' evs :
  (k' <= k)%nat -> store_writable k evs -> store_writable k' evs.
Proof.
  intros Hle [Hk Hall]. split; [lia|].
  eapply Forall_impl; [exact Hall|]. intros e. by apply writable_mono.
Qed.

Lemma clean_op_text_op o : clean_op o -> text_op o.
Proof.
  assert (forall v, clean v -> text v) as H by (intros v (x & -> & _); by exists x).
  destruct o; cbn; try done; intros (? & ? & ?); by auto.
Qed.

Lemma writable_ids k evs :
  Forall (writable k) evs ->
  exists zs, Event.id <$> evs = VInt <$> zs /\
             Forall (fun z => 0 < z /\ z + Z.of_nat k < digit_limit) zs.
Proof.
  induction 1 as [|e evs (n & t & i & d & c & Hn & Hlim & _ & _ & _ & ->) _ (zs & IH & Hzs)].
  - by exists [].
  - exists (n :: zs). cbn. rewrite IH. split; [done|by constructor].
Qed.

(** An operation called with UTF-8 text uses up room for one id at most. *)
Lemma run_writable o s r s' k :
  run o s = Ok (r, s') -> store_writable (S k) (events s) -> clean_op o ->
  store_writable k (events s').
Proof.
  intros Hrun [Hk Hall] Hop.
  assert (Forall (writable k) (events s)) as Hall'
    by (eapply Forall_impl; [exact Hall|]; intros e; apply writable_mono; lia).
  split; [lia|]. apply run_inv in Hrun as [_ Hrun].
  destruct o as [t i d|n t i d|n|n|]; cbn in Hop.
  - destruct Hrun as (v & Hgen & -> & _).
    destruct (writable_ids _ _ Hall) as (zs & Hids & Hzs).
    rewrite (generate_id_ints s zs Hids) in Hgen. injection Hgen as <-.
    destruct Hop as ((t' & -> & Ht) & (i' & -> & Hi) & (d' & -> & Hd)).
    apply Forall_app. split; [done|]. apply Forall_singleton.
    exists (next_id zs), t', i', d', false.
    split; [apply next_id_pos; eapply Forall_impl; [exact Hzs|]; by intros z [? _]|].
    split; [|done].
    destruct zs as [|z zs]; [cbn; lia|].
    pose proof (next_id_attained (z :: zs)) as Hmax.
    assert (next_id (z :: zs) - 1 ∈ z :: zs) as Hin by (by apply Hmax).
    destruct (proj1 (Forall_forall _ _) Hzs _ Hin) as [_ Hlim]. lia.
  - destruct Hrun as [[_ ->]|(ref & old & Hf & -> & _)]; [done|].
    apply first_with_id_Some in Hf as (Hl & _).
    apply Forall_insert; [done|].
    destruct (proj1 (Forall_lookup _ _) Hall' _ _ Hl)
      as (m & t0 & i0 & d0 & c0 & Hm & Hlim & Ht0 & Hi0 & Hd0 & ->).
    destruct Hop as ((t' & -> & Ht) & (i' & -> & Hi) & (d' & -> & Hd)). cbn.
    destruct (negb (String.eqb t' "")), (negb (String.eqb i' "")),
             (negb (String.eqb d' "")); by repeat eexists.
  - destruct Hrun as [[_ ->]|(ref & old & Hf & -> & _)]; [done|]. by apply Forall_delete.
  - destruct Hrun as [[_ ->]|(ref & old & Hf & -> & _)]; [done|].
    apply first_with_id_Some in Hf as (Hl & _).
    apply Forall_insert; [done|].
    destruct (proj1 (Forall_lookup _ _) Hall' _ _ Hl)
      as (m & t0 & i0 & d0 & c0 & Hm & Hlim & Ht0 & Hi0 & Hd0 & ->).
    by repeat eexists.
  - destruct Hrun as (Hsort & _). by rewrite (sort_by_perm _ _ _ Hsort).
Qed.

Lemma run_store_writable o s k :
  store_ok s -> store_writable (S k) (events s) -> clean_op o ->
  exists r s', run o s = Ok (r, s') /\ store_ok s' /\ store_writable k (events s').
Proof.
  intros Hok Hw Hop.
  destruct (run_store_ok o s Hok (clean_op_text_op o Hop)) as (r & s' & Hrun & Hok').
  exists r, s'. split; [done|]. split; [done|]. by eapply run_writable.
Qed.
End Writing.

(** X10. The data model is kept wherever the file can be written: on a
    store whose events have pairwise distinct positive integer ids, strings
    of UTF-8 text as title, importance and date and a boolean completed
    flag, with ids that leave room for one more below the limit of 4300
    digits, every operation called with UTF-8 text for title, importance
    and date returns, and leaves a store of that kind in which every event
    can again be written. *)
Theorem data_model_preserved (o : Diary.op) (s : Diary.state) (k : nat) :
  store_ok s -> store_writable (S k) (Diary.events s) -> clean_op o ->
  exists r s',
    Diary.run o s = Ok (r, s') /\ store_ok s' /\ store_writable k (Diary.events s').
Proof. apply run_store_writable. Qed.

Lemma data_model_preserved_witness :
  let ev n := Event.init (VInt n) (VStr "t") (VStr "Low") (VStr "2024-01-01") (VBool false) in
  let s := Diary.mkState [ev 1; ev 2] None [] in
  let o := Diary.Add (VStr "Зубной врач") (VStr "Высокая") (VStr "2024-02-02") in
  store_ok s /\ store_writable 1 (Diary.events s) /\
  exists r s', Diary.run o s = Ok (r, s') /\ store_ok s' /\ store_writable 0 (Diary.events s').
Proof.
  intros ev s o.
  assert (forall n, 0 < n -> n + 1 < digit_limit -> writable 1 (ev n)) as Hev.
  { intros n Hn Hlim. exists n, "t", "Low", "2024-01-01", false. by repeat split. }
  assert (forall n : Z, (n <? digit_limit) = true -> n < digit_limit) as Hlt
    by (intros n; apply Z.ltb_lt).
  assert (store_ok s) as Hs.
  { split.
    - cbn. apply Forall_cons; split; [by exists 1, "t", "Low", "2024-01-01", false|].
      apply Forall_cons; split; [by exists 2, "t", "Low", "2024-01-01", false|].
      apply Forall_nil_2.
    - cbn. apply NoDup_cons_2; [|apply NoDup_singleton].
      intros H. apply list_elem_of_singleton in H. discriminate H. }
  assert (store_writable 1 (Diary.events s)) as Hw.
  { split; [apply Hlt; by vm_compute|]. cbn.
    apply Forall_cons; split; [apply Hev; [lia|apply Hlt; by vm_compute]|].
    apply Forall_cons; split; [apply Hev; [lia|apply Hlt; by vm_compute]|].
    apply Forall_nil_2. }
  split; [exact Hs|]. split; [exact Hw|].
  apply (data_model_preserved o s 0 Hs Hw). cbn. repeat split; by eexists.
Defined.

(** X11. A sequence of operations called with UTF-8 text, started on a
    store that follows the data model and can be written, with room below
    the limit for one id for every operation, never raises; the store it
    ends in follows the data model and can be written, and a restart on
    its file reads back its events if that was so at the start. *)
Theorem run_all_never_raises (os : list Diary.op) (s : Diary.state) :
  store_ok s -> store_writable (length os) (Diary.events s) -> Forall clean_op os ->
  exists s',
    run_all os s = Ok s' /\ store_ok s' /\ store_writable 0 (Diary.events s') /\
    (restartable s -> restartable s').
Proof.
  intros Hs Hw Hos. revert s Hs Hw. induction Hos as [|o os Ho _ IH]; intros s Hs Hw.
  { exists s. split; [done|]. split; [done|]. by split. }
  destruct (run_store_writable o s (length os) Hs Hw Ho) as (r & s1 & Hrun & Hs1 & Hw1).
  destruct (IH s1 Hs1 Hw1) as (s' & Hall & Hs' & Hw' & Hre).
  exists s'. cbn. rewrite Hrun. split; [done|]. split; [done|]. split; [done|].
  intros H. apply Hre. by eapply run_restartable.
Qed.

Lemma run_all_never_raises_witness :
  let os := [Diary.Add (VStr "Meeting") (VStr "High") (VStr "2024-06-01");
             Diary.Add (VStr "Dentist") (VStr "Low") (VStr "2024-03-05");
             Diary.SortByDate; Diary.MarkCompleted (VInt 2); Diary.Delete (VInt 1);
             Diary.Edit (VInt 2) (VStr "") (VStr "High") (VStr "")] in
  let s := Diary.mkState [] None [] in
  exists s',
    run_all os s = Ok s' /\ store_ok s' /\ store_writable 0 (Diary.events s') /\
    (restartable s -> restartable s').
Proof.
  intros os s. apply (run_all_never_raises os s).
  - split; [apply Forall_nil_2|apply NoDup_nil_2].
  - split; [apply Z.ltb_lt; by vm_compute|apply Forall_nil_2].
  - unfold os. repeat (apply Forall_cons; split; [cbn; repeat split; by eexists|]).
    apply Forall_nil_2.
Defined.

Section Completion.
Import Diary.
Implicit Types (s : state) (evs : list Event.t) (e : Event.t).

Lemma count_completed_app evs1 evs2 :
  count_completed (evs1 ++ evs2) = (count_completed evs1 + count_completed evs2)%nat.
Proof. unfold count_completed. by rewrite filter_app, length_app. Qed.

Lemma count_completed_cons e evs :
  count_completed (e :: evs) =
    ((if Py.truthy (Event.completed e) then 1 else 0) + count_completed evs)%nat.
Proof.
  unfold count_completed. rewrite filter_cons.
  destruct (decide (Py.truthy (Event.completed e) = true)) as [->|Hn]; [done|].
  by destruct (Py.truthy (Event.completed e)).
Qed.

Lemma count_completed_split evs ref e :
  evs !! ref = Some e ->
  count_completed evs =
    (count_completed (take ref evs) +
     ((if Py.truthy (Event.completed e) then 1 else 0) +
      count_completed (drop (S ref) evs)))%nat.
Proof.
  intros Hl. rewrite <- (take_drop_middle _ _ _ Hl) at 1.
  by rewrite count_completed_app, count_completed_cons.
Qed.

Lemma count_completed_insert evs ref old new :
  evs !! ref = Some old ->
  (Py.truthy (Event.completed old) = true -> Py.truthy (Event.completed new) = true) ->
  (count_completed evs <= count_completed (<[ref := new]> evs))%nat.
Proof.
  intros Hl Himp. rewrite (count_completed_split _ _ _ Hl).
  rewrite insert_take_drop by (by eapply lookup_lt_Some).
  rewrite count_completed_app, count_completed_cons.
  destruct (Py.truthy (Event.completed old)); [rewrite Himp by done|]; lia.
Qed.
End Completion.

(** X12. No operation takes a completion mark away: after [add_event],
    [edit_event], [mark_completed] and [sort_events_by_date] at least as
    many events are shown as completed as before, and [delete_event]
    lowers their number by one at most. *)
Theorem completion_never_lost (o : Diary.op) (s : Diary.state) (r : object)
    (s' : Diary.state) :
  Diary.run o s = Ok (r, s') ->
  (count_completed (Diary.events s) <=
     count_completed (Diary.events s') +
     match o with Diary.Delete _ => 1 | _ => 0 end)%nat.
Proof.
  intros Hrun. apply run_inv in Hrun as [_ Hrun].
  destruct o as [t i d|n t i d|n|n|].
  - destruct Hrun as (v & _ & -> & _). rewrite count_completed_app. lia.
  - destruct Hrun as [[_ ->]|(ref & old & Hf & -> & _)]; [cbn [Diary.events]; lia|].
    apply first_with_id_Some in Hf as (Hl & _).
    pose proof (count_completed_insert _ _ _
      (Event.init (Event.id old)
         (if Py.truthy t then t else Event.title old)
         (if Py.truthy i then i else Event.importance old)
         (if Py.truthy d then d else Event.date old) (Event.completed old))
      Hl (fun H => H)). lia.
  - destruct Hrun as [[_ ->]|(ref & old & Hf & -> & _)]; [cbn [Diary.events]; lia|].
    apply first_with_id_Some in Hf as (Hl & _).
    rewrite (count_completed_split _ _ _ Hl), delete_take_drop, count_completed_app.
    destruct (Py.truthy (Event.completed old)); lia.
  - destruct Hrun as [[_ ->]|(ref & old & Hf & -> & _)]; [cbn [Diary.events]; lia|].
    apply first_with_id_Some in Hf as (Hl & _).
    pose proof (count_completed_insert _ _ _ (Event.set_completed (VBool true) old)
                  Hl (fun _ => eq_refl)). lia.
  - destruct Hrun as (Hsort & _). apply sort_by_perm in Hsort.
    unfold count_completed. rewrite Hsort. lia.
Qed.

Lemma completion_never_lost_witness :
  let ev n c := Event.init (VInt n) (VStr "t") (VStr "Low") (VStr "2024-01-01") (VBool c) in
  let s := Diary.mkState [ev 1 true; ev 2 false] None [] in
  let s' := Diary.mkState [ev 1 true; ev 2 true] (saved [ev 1 true; ev 2 true])
              [Diary.MsgCompleted] in
  (count_completed (Diary.events s) <= count_completed (Diary.events s') + 0)%nat.
Proof.
  intros ev s s'.
  exact (completion_never_lost (Diary.MarkCompleted (VInt 2)) s PyNone s' eq_refl).
Defined.

(** X13. [edit_event] called for an existing id with nothing to change
    (every field [None] or empty) leaves the list as it is, and all the
    same rewrites the file from it and prints that the event was updated. *)
Theorem edit_event_nothing_given (s : Diary.state) (n title importance date : value)
    (e : Event.t) :
  e ∈ Diary.events s -> Py.eq (Event.id e) n = true ->
  Py.truthy title = false -> Py.truthy importance = false -> Py.truthy date = false ->
  Diary.edit_event n title importance date s =
    Ok (PyNone, Diary.mkState (Diary.events s) (saved (Diary.events s))
                  (Diary.printed s ++ [Diary.MsgUpdated])).
Proof.
  intros He Hid Ht Hi Hd. destruct (first_with_id_elem n _ e He Hid) as (ref & old & Hf).
  rewrite (edit_event_found _ _ _ _ _ _ _ Hf). cbn. rewrite Ht, Hi, Hd.
  apply first_with_id_Some in Hf as (Hl & _).
  destruct old as [a b c d x]. cbn. by rewrite (list_insert_id _ _ _ Hl).
Qed.

Lemma edit_event_nothing_given_witness :
  let ev := Event.init (VInt 1) (VStr "t") (VStr "Low") (VStr "2024-01-01") (VBool false) in
  Diary.edit_event (VInt 1) (VStr "") VNone VNone (Diary.mkState [ev] None []) =
    Ok (PyNone, Diary.mkState [ev] (saved [ev]) [Diary.MsgUpdated]).
Proof.
  intros ev.
  apply (edit_event_nothing_given (Diary.mkState [ev] None []) (VInt 1)
           (VStr "") VNone VNone ev); try reflexivity.
  cbn. apply list_elem_of_here.
Defined.

(** * The console *)

(** ** Slicing a title *)

Section Slicing.
Import Console.
Implicit Types (s : string) (n : nat).




End Slicing.

(** ** Listing the events *)

Section Listing.
Import Console.
Implicit Types (w : world) (evs : list Event.t) (e : Event.t).


Lemma print_rows_printable evs w :
  Forall printable evs ->
  exists rows,
    print_rows evs w =
      Done tt (mkWorld (events w) (file w) (stdin w) (stdout w ++ rows)) /\
    Forall2 (fun e r => row e = inr r) evs rows.
Proof.
  intros Hall. revert w. induction Hall as [|e evs He _ IH]; intros w.
  { exists []. cbn. rewrite app_nil_r. split; [by destruct w|constructor]. }
  destruct (row e) as [err|r] eqn:Hrow.
  { exfalso. destruct He as (Ha & [t Ht] & Hc & Hd).
    unfold row in Hrow. rewrite Ht in Hrow. cbn in Hrow. by rewrite Ha, Hc, Hd in Hrow. }
  destruct (IH (mkWorld (events w) (file w) (stdin w) (stdout w ++ [r]))) as (rows & Hrun & Hrows).
  exists (r :: rows). cbn [print_rows]. rewrite Hrow.
  unfold mbind, M_bind, print at 1. rewrite Hrun. cbn. rewrite <- app_assoc.
  split; [done|by constructor].
Qed.



Lemma display_events_printable w :
  Forall printable (events w) ->
  exists rows,
    display_events w =
      Done tt (mkWorld (events w) (file w) (stdin w)
                 (stdout w ++ match events w with
                              | [] => [NoEvents]
                              | _ => TableHead :: rows ++ [TableEnd]
                              end)) /\
    Forall2 (fun e r => row e = inr r) (events w) rows.
Proof.
  intros Hall. unfold display_events.
  destruct (events w) as [|e evs] eqn:Hev.
  { exists []. unfold print. rewrite Hev. split; [done|constructor]. }
  destruct (print_rows_printable (e :: evs)
              (mkWorld (events w) (file w) (stdin w) (stdout w ++ [TableHead])) Hall)
    as (rows & Hrun & Hrows).
  exists rows. split; [|done].
  unfold mbind, M_bind, print at 1. rewrite Hrun. cbn.
  rewrite Hev. unfold print. cbn. by rewrite <- !app_assoc.
Qed.
End Listing.



(** A title in Cyrillic of 43 characters, two bytes each, is cut after the
    thirtieth. *)
Example display_events_cyrillic :
  Console.row (Event.init (VInt 1) (VStr "Очень длинное название события для проверки")
                 (VStr "Высокая") (VStr "2024-06-01") (VBool false)) =
    inr (Console.Row (VInt 1) (VStr "Очень длинное название события") (VStr "Высокая")
           (VStr "2024-06-01") Console.NotCompleted).
Proof. reflexivity. Qed.



(** ** Reading and running *)

Section Steps.
Import Console.
Implicit Types (w : world) (p : prompt).

Lemma reads_on_ret {A} (a : A) : reads_on (mret a : M A).
Proof. intros w. by cbn. Qed.

Lemma reads_on_bind {A B} (m : M A) (k : A -> M B) :
  reads_on m -> (forall a, reads_on (k a)) -> reads_on (m ≫= k).
Proof.
  intros Hm Hk w. specialize (Hm w). unfold mbind, M_bind.
  destruct (m w) as [a w1|e w1]; [|done].
  specialize (Hk a w1). destruct (k a w1); lia.
Qed.

Lemma reads_some_bind_l {A B} (m : M A) (k : A -> M B) :
  reads_some m -> (forall a, reads_on (k a)) -> reads_some (m ≫= k).
Proof.
  intros Hm Hk w. specialize (Hm w). unfold mbind, M_bind.
  destruct (m w) as [a w1|e w1]; [|done].
  specialize (Hk a w1). destruct (k a w1); lia.
Qed.

Lemma reads_some_bind_r {A B} (m : M A) (k : A -> M B) :
  reads_on m -> (forall a, reads_some (k a)) -> reads_some (m ≫= k).
Proof.
  intros Hm Hk w. specialize (Hm w). unfold mbind, M_bind.
  destruct (m w) as [a w1|e w1]; [|done].
  specialize (Hk a w1). destruct (k a w1); lia.
Qed.

Lemma reads_on_print o : reads_on (print o).
Proof. intros w. by cbn. Qed.

Lemma reads_some_input p : reads_some (input p).
Proof. intros w. unfold input. destruct (stdin w); cbn; lia. Qed.

Lemma reads_on_input p : reads_on (input p).
Proof. intros w. pose proof (reads_some_input p w). destruct (input p w); lia. Qed.

Lemma reads_on_call {A} (m : Diary.M A) : reads_on (call m).
Proof. intros w. unfold call. by destruct (m _) as [[a s]|e]. Qed.

Lemma reads_on_get_event n : reads_on (get_event n).
Proof. intros w. by cbn. Qed.

Lemma reads_on_except body : reads_on body -> reads_on (except_ValueError body).
Proof.
  intros Hb w. specialize (Hb w). unfold except_ValueError.
  destruct (body w) as [a w'|e w']; [done|]. by destruct (is_ValueError e).
Qed.

(** Laying out the rows touches neither list nor file nor the lines to be
    typed, also when a row stops it. *)
Lemma print_rows_frame evs w :
  match print_rows evs w with
  | Done _ w' | Fail _ w' =>
      events w' = events w /\ file w' = file w /\ stdin w' = stdin w
  end.
Proof.
  revert w. induction evs as [|e evs IH]; intros w; cbn [print_rows]; [by cbn|].
  destruct (row e) as [err|r]; [done|].
  unfold mbind, M_bind, print at 1.
  specialize (IH (mkWorld (events w) (file w) (stdin w) (stdout w ++ [r]))).
  by destruct (print_rows evs _).
Qed.

Lemma display_events_frame w :
  match display_events w with
  | Done _ w' | Fail _ w' =>
      events w' = events w /\ file w' = file w /\ stdin w' = stdin w
  end.
Proof.
  unfold display_events. destruct (events w) as [|e evs] eqn:Hev; [by cbn|].
  unfold mbind, M_bind, print at 1.
  pose proof (print_rows_frame (e :: evs)
                (mkWorld (events w) (file w) (stdin w) (stdout w ++ [TableHead]))) as H.
  destruct (print_rows (e :: evs) _) as [a w1|err w1]; cbn in *; [|by rewrite Hev in H].
  by rewrite Hev in H.
Qed.

Lemma reads_on_display_events : reads_on display_events.
Proof.
  intros w. pose proof (display_events_frame w) as H.
  destruct (display_events w); destruct H as (_ & _ & ->); lia.
Qed.
End Steps.

(** ** Asking for a date *)

Section AskingDate.
Import Console.
Variable strptime_ok : string -> bool.
Implicit Types (w : world) (p : prompt).

(** The recursion is the loop of the source: ask, return the line if it is
    a date, else complain and start again. *)
Lemma input_date_loop p w :
  input_date strptime_ok p w =
    (date_str ← input p;
     if strptime_ok date_str then mret date_str
     else print BadDate;; input_date strptime_ok p) w.
Proof.
  unfold input_date, input, mbind, M_bind. destruct (stdin w) as [|l rest]; cbn; [done|].
  by destruct (strptime_ok l).
Qed.

Lemma input_date_on_accepts p rejected accepted rest w :
  Forall (fun l => strptime_ok l = false) rejected ->
  strptime_ok accepted = true ->
  input_date_on strptime_ok p (rejected ++ accepted :: rest) w =
    Done accepted
      (mkWorld (events w) (file w) rest
         (stdout w ++ concat ((fun _ => [Asked p; BadDate]) <$> rejected) ++ [Asked p])).
Proof.
  intros Hrej Hacc. revert w. induction Hrej as [|l rejected Hl _ IH]; intros w; cbn.
  - by rewrite Hacc.
  - rewrite Hl, IH. cbn. by rewrite <- !app_assoc.
Qed.

Lemma input_date_on_starves p rejected w :
  Forall (fun l => strptime_ok l = false) rejected ->
  input_date_on strptime_ok p rejected w =
    Fail EOFError
      (mkWorld (events w) (file w) []
         (stdout w ++ concat ((fun _ => [Asked p; BadDate]) <$> rejected) ++ [Asked p])).
Proof.
  intros Hrej. revert w. induction Hrej as [|l rejected Hl _ IH]; intros w; cbn; [done|].
  rewrite Hl, IH. cbn. by rewrite <- !app_assoc.
Qed.

(** What [input_date] returns is one of the lines typed, the lines after
    it are still to be read; it stops at nothing but the end of the
    input. *)
Lemma input_date_on_result p lines w :
  match input_date_on strptime_ok p lines w with
  | Done d w' =>
      strptime_ok d = true /\ events w' = events w /\ file w' = file w /\
      exists before, lines = before ++ d :: stdin w'
  | Fail e w' => e = EOFError /\ events w' = events w /\ file w' = file w /\ stdin w' = []
  end.
Proof.
  revert w. induction lines as [|l rest IH]; intros w; cbn; [done|].
  destruct (strptime_ok l) eqn:Hl; cbn; [repeat split; [done|by exists []]|].
  specialize (IH (mkWorld (events w) (file w) rest ((stdout w ++ [Asked p]) ++ [BadDate]))).
  destruct (input_date_on _ _ _ _) as [d w'|e w']; cbn in *; [|done].
  destruct IH as (? & ? & ? & before & ->). repeat split; try done.
  by exists (l :: before).
Qed.

Lemma reads_some_input_date p : reads_some (input_date strptime_ok p).
Proof.
  intros w. unfold input_date. pose proof (input_date_on_result p (stdin w) w) as H.
  destruct (input_date_on _ _ _ _).
  - destruct H as (_ & _ & _ & before & ->). rewrite length_app. cbn. lia.
  - destruct H as (_ & _ & _ & ->). cbn. lia.
Qed.

Lemma reads_on_input_date p : reads_on (input_date strptime_ok p).
Proof.
  intros w. pose proof (reads_some_input_date p w).
  destruct (input_date _ _ _); lia.
Qed.
End AskingDate.

(** X16. [input_date] returns the first line typed that [strptime] takes
    for a date, as it was typed; it has then read the lines before it and
    no line after it, and has written the prompt for every line read and a
    complaint for every line refused. When no line is a date it ends with
    the [EOFError] of [input], all lines read. It touches neither the list
    nor the file. *)
Theorem input_date_first_accepted (strptime_ok : string -> bool) (p : Console.prompt)
    (w : Console.world) (rejected : list string) :
  Forall (fun l => strptime_ok l = false) rejected ->
  let asked := concat ((fun _ => [Console.Asked p; Console.BadDate]) <$> rejected)
               ++ [Console.Asked p] in
  (forall accepted rest,
     strptime_ok accepted = true ->
     Console.stdin w = rejected ++ accepted :: rest ->
     Console.input_date strptime_ok p w =
       Console.Done accepted
         (Console.mkWorld (Console.events w) (Console.file w) rest
            (Console.stdout w ++ asked))) /\
  (Console.stdin w = rejected ->
   Console.input_date strptime_ok p w =
     Console.Fail Console.EOFError
       (Console.mkWorld (Console.events w) (Console.file w) []
          (Console.stdout w ++ asked))).
Proof.
  intros Hrej asked. split.
  - intros accepted rest Hacc Hin. unfold Console.input_date. rewrite Hin.
    by apply input_date_on_accepts.
  - intros Hin. unfold Console.input_date. rewrite Hin. by apply input_date_on_starves.
Qed.

Lemma input_date_first_accepted_witness :
  let ok s := (String.length s =? 10)%nat in
  let w := Console.mkWorld [] None ["soon"; "1 May"; "2024-05-01"; "2"] [Console.Menu] in
  Console.input_date ok Console.AskDate w =
    Console.Done "2024-05-01"
      (Console.mkWorld [] None ["2"]
         [Console.Menu; Console.Asked Console.AskDate; Console.BadDate;
          Console.Asked Console.AskDate; Console.BadDate; Console.Asked Console.AskDate]).
Proof.
  intros ok w.
  assert (Forall (fun l => ok l = false) ["soon"; "1 May"]) as Hrej.
  { apply Forall_cons; split; [reflexivity|].
    apply Forall_cons; split; [reflexivity|]. apply Forall_nil_2. }
  exact (proj1 (input_date_first_accepted ok Console.AskDate w ["soon"; "1 May"] Hrej)
           "2024-05-01" ["2"] eq_refl eq_refl).
Defined.

(** ** A session at the menu *)

Section Dates.
Import Diary.
Variable good : string -> Prop.
Implicit Types (s : state) (o : op).

Lemma run_dated o s r s' :
  run o s = Ok (r, s') ->
  Forall (dated good) (events s) ->
  match o with
  | Add _ _ d => exists x, d = VStr x /\ good x
  | Edit n _ _ d =>
      (exists x, d = VStr x /\ good x) \/
      (exists ref old, first_with_id n (events s) = Some (ref, old) /\ d = Event.date old)
  | _ => True
  end ->
  Forall (dated good) (events s').
Proof.
  intros Hrun Hall Hop. apply run_inv in Hrun as [_ Hrun].
  destruct o as [t i d|n t i d|n|n|].
  - destruct Hrun as (v & _ & -> & _). destruct Hop as (x & -> & Hx).
    apply Forall_app. split; [done|]. apply Forall_singleton. by exists x.
  - destruct Hrun as [[_ ->]|(ref & old & Hf & -> & _)]; [done|].
    pose proof Hf as (Hl & _)%first_with_id_Some.
    pose proof (proj1 (Forall_lookup _ _) Hall _ _ Hl) as (dold & Hdold & Hgold).
    apply Forall_insert; [done|]. unfold dated. cbn.
    destruct Hop as [(x & -> & Hx)|(ref' & old' & Hf' & ->)].
    + destruct (Py.truthy (VStr x)); by eauto.
    + rewrite Hf in Hf'. injection Hf' as _ <-.
      destruct (Py.truthy (Event.date old)); by eauto.
  - destruct Hrun as [[_ ->]|(ref & old & Hf & -> & _)]; [done|]. by apply Forall_delete.
  - destruct Hrun as [[_ ->]|(ref & old & Hf & -> & _)]; [done|].
    pose proof Hf as (Hl & _)%first_with_id_Some.
    apply Forall_insert; [done|]. exact (proj1 (Forall_lookup _ _) Hall _ _ Hl).
  - destruct Hrun as (Hsort & _). by rewrite (sort_by_perm _ _ _ Hsort).
Qed.
End Dates.

Section Session.
Import Console.
Variable strptime_ok : string -> bool.
Variable parse_int : string -> option Z.
Implicit Types (w : world) (p : prompt).

Lemma leads_bind {A B} P (m : M A) (k : A -> M B) Q Q' R :
  leads P m Q R -> (forall a, leads (Q a) (k a) Q' R) -> leads P (m ≫= k) Q' R.
Proof.
  intros Hm Hk w Hw. specialize (Hm w Hw). unfold mbind, M_bind.
  destruct (m w) as [a w1|e w1]; [|done]. by apply Hk.
Qed.

Lemma leads_weaken {A} (P P' : world -> Prop) (m : M A) (Q Q' : A -> world -> Prop)
    (R R' : error -> world -> Prop) :
  leads P m Q R ->
  (forall w, P' w -> P w) -> (forall a w, Q a w -> Q' a w) -> (forall e w, R e w -> R' e w) ->
  leads P' m Q' R'.
Proof.
  intros Hm HP HQ HR w Hw. specialize (Hm w (HP w Hw)).
  destruct (m w) as [a w'|e w']; by auto.
Qed.

Lemma leads_ret {A} (a : A) (P : world -> Prop) (Q : A -> world -> Prop) R :
  (forall w, P w -> Q a w) -> leads P (mret a) Q R.
Proof. intros HQ w Hw. cbn. by auto. Qed.

(** A fact that does not speak of the world is carried along. *)
Lemma leads_pure {A} (fact : Prop) (P : world -> Prop) (m : M A) Q R :
  (fact -> leads P m Q R) -> leads (fun w => P w /\ fact) m Q R.
Proof. intros H w [Hw Hfact]. by apply H. Qed.

(** The handler of [ValueError] lets the round go on. *)
Lemma leads_except (P I : world -> Prop) body (Q : unit -> world -> Prop) R :
  leads P body Q (unless_ValueError I R) ->
  (forall w, I w -> Q tt (mkWorld (events w) (file w) (stdin w) (stdout w ++ [BadId]))) ->
  leads P (except_ValueError body) Q R.
Proof.
  intros Hb HI w Hw. specialize (Hb w Hw). unfold except_ValueError.
  destruct (body w) as [a w'|e w']; [done|].
  unfold unless_ValueError in Hb. destruct (is_ValueError e); [|done].
  cbn. by apply HI.
Qed.

Lemma kept_and line R (I J : world -> Prop) :
  kept line R I ->
  (forall w w', events w' = events w -> J w -> J w') ->
  kept line R (fun w => I w /\ J w).
Proof.
  intros (Hst & Hl & He) HJ. split; [|split].
  - intros w w' Hev Hf Hin [HI Hj]. split; [by apply (Hst w)|by apply (HJ w)].
  - intros w [HI _]. by apply Hl.
  - intros w [HI _]. by apply He.
Qed.

Lemma kept_unless line R (I I0 : world -> Prop) :
  kept line R I -> kept line (unless_ValueError I0 R) I.
Proof. intros (Hst & Hl & He). split; [done|]. split; [done|]. intros w Hw. by apply He. Qed.

Lemma leads_print line R I o : kept line R I -> leads I (print o) (fun _ => I) R.
Proof. intros (Hst & _) w Hw. cbn. by apply (Hst w). Qed.

Lemma leads_input line R I p :
  kept line R I -> leads I (input p) (fun l w => I w /\ line l) R.
Proof.
  intros (Hst & Hl & He) w Hw. specialize (Hl w Hw). unfold input.
  destruct (stdin w) as [|l rest] eqn:Hin.
  - apply He, (Hst w); [done..| |done]. by rewrite Hin.
  - apply Forall_cons in Hl as [Hl _]. split; [|done].
    apply (Hst w); [done..| |done]. rewrite Hin. cbn. by apply suffix_cons_r.
Qed.

Lemma leads_input_date line R I p :
  kept line R I ->
  leads I (input_date strptime_ok p)
    (fun d w => I w /\ (line d /\ strptime_ok d = true)) R.
Proof.
  intros (Hst & Hl & He) w Hw. specialize (Hl w Hw). unfold input_date.
  pose proof (input_date_on_result strptime_ok p (stdin w) w) as H.
  destruct (input_date_on _ _ _ _) as [d w'|e w'].
  - destruct H as (Hd & Hev & Hf & before & Hin). rewrite Hin in Hl.
    apply Forall_app in Hl as [_ [Hl _]%Forall_cons].
    split; [|done]. apply (Hst w); [done..| |done].
    rewrite Hin. apply suffix_app_r, suffix_cons_r. done.
  - destruct H as (-> & Hev & Hf & Hin). apply He, (Hst w); [done..| |done].
    rewrite Hin. apply suffix_nil.
Qed.

Lemma leads_get_event (I : world -> Prop) R n :
  leads I (get_event n) (fun found w => I w /\ first_with_id n (events w) = found) R.
Proof. intros w Hw. by cbn. Qed.

Lemma leads_int_input line R I p :
  kept line R I -> (forall w, I w -> R ValueError w) ->
  leads I (int_input parse_int p) (fun _ => I) R.
Proof.
  intros HI Hv. unfold int_input.
  eapply leads_bind; [by apply (leads_input line)|]. intros l.
  destruct (parse_int l).
  - apply leads_ret. by intros w [Hw _].
  - intros w [Hw _]. by apply Hv.
Qed.

(** *** One round under an invariant

    [I0] holds between the rounds and [I1] once the choice is read; the
    calls of the store lead from [I1] back to [I0]. *)
Section Round.
Variables (I0 I1 : world -> Prop) (line : string -> Prop) (R : error -> world -> Prop).
Hypothesis I0_kept : kept line R I0.
Hypothesis I1_kept : kept line R I1.
Hypothesis I1_I0 : forall w, I1 w -> I0 w.
Hypothesis R_I0 : forall e w, R e w -> I0 w.
Hypothesis choice_read : forall p, leads I0 (input p) (fun _ => I1) R.
Hypothesis called : forall o,
  leads (fun w => I1 w /\ from_menu line (fun d => strptime_ok d = true) w o)
    (call (Diary.run o)) (fun _ => I0) R.
Hypothesis displayed : leads I1 display_events (fun _ => I0) R.

Lemma unless_intro e w : R e w -> unless_ValueError I0 R e w.
Proof. intros H. unfold unless_ValueError. destruct (is_ValueError e); [by eapply R_I0|done]. Qed.

Lemma leads_then {A B} (P : world -> Prop) (m : M A) (b : B) R' :
  leads P m (fun _ => I0) R' -> leads P (m;; mret b) (fun _ => I0) R'.
Proof. intros Hm. eapply leads_bind; [exact Hm|]. intros ?. by apply leads_ret. Qed.

Lemma leads_called (P : world -> Prop) (m : Diary.M object) o :
  m = Diary.run o ->
  (forall w, P w -> I1 w /\ from_menu line (fun d => strptime_ok d = true) w o) ->
  leads P (call m;; mret tt) (fun _ => I0) (unless_ValueError I0 R).
Proof.
  intros -> HP. apply leads_then.
  eapply leads_weaken; [apply (called o)|exact HP|by auto|apply unless_intro].
Qed.

Lemma leads_id_then (P : world -> Prop) p (k : Z -> M unit) :
  (forall w, P w -> I1 w) ->
  (forall z, leads I1 (k z) (fun _ => I0) (unless_ValueError I0 R)) ->
  leads P (except_ValueError (event_id ← int_input parse_int p; k event_id);; mret true)
    (fun _ => I0) R.
Proof.
  intros HP Hk. apply leads_then. apply (leads_except _ I0).
  - eapply leads_bind; [|exact Hk].
    eapply leads_weaken;
      [apply (leads_int_input line (unless_ValueError I0 R) I1)|exact HP|by auto..].
    + by apply kept_unless.
    + intros w Hw. by apply I1_I0.
  - intros w Hw. destruct I0_kept as (Hst & _). by apply (Hst w).
Qed.

Lemma edit_dialogue z ref old :
  let I w := I1 w /\ first_with_id (VInt z) (events w) = Some (ref, old) in
  leads I
    (print EditHint;;
     answer ← input (AskNewTitle (Event.title old));
     let new_title := or_else answer (Event.title old) in
     answer ← input (AskNewImportance (Event.importance old));
     let new_importance := or_else answer (Event.importance old) in
     answer ← input AskChangeDate;
     new_date ← (if lower_is_y answer
                 then date ← input_date strptime_ok (AskNewDate (Event.date old));
                      mret (VStr date)
                 else mret (Event.date old) : M value);
     call (Diary.edit_event (VInt z) new_title new_importance new_date);;
     mret tt)
    (fun _ => I0) (unless_ValueError I0 R).
Proof.
  intros I.
  assert (kept line (unless_ValueError I0 R) I) as HI.
  { apply kept_and; [by apply kept_unless|]. by intros w w' ->. }
  assert (forall x v, line x -> or_else x v = v \/ exists y, or_else x v = VStr y /\ line y)
    as Hor.
  { intros x v Hx. unfold or_else. destruct (Py.truthy (VStr x)); [right; by eauto|by left]. }
  eapply leads_bind; [by apply (leads_print line)|]. intros ?.
  eapply leads_bind; [by apply (leads_input line)|]. intros answer1.
  apply leads_pure. intros H1.
  eapply leads_bind; [by apply (leads_input line)|]. intros answer2.
  apply leads_pure. intros H2.
  eapply leads_bind; [by apply (leads_input line)|]. intros answer3.
  apply leads_pure. intros _.
  eapply (leads_bind _ _ _
            (fun nd w => I w /\
               (nd = Event.date old \/
                exists x, nd = VStr x /\ line x /\ strptime_ok x = true))).
  { destruct (lower_is_y answer3).
    - eapply leads_bind; [by apply (leads_input_date line)|]. intros d.
      apply leads_ret. intros w [Hw [Hl Hd]]. split; [done|]. right. by eauto.
    - apply leads_ret. intros w Hw. split; [exact Hw|by left]. }
  intros nd.
  apply (leads_called _ _ (Diary.Edit (VInt z) (or_else answer1 (Event.title old))
                             (or_else answer2 (Event.importance old)) nd)); [done|].
  intros w [[Hw Hfind] Hnd]. split; [done|]. cbn. exists ref, old.
  split; [done|]. split; [by apply Hor|]. split; [by apply Hor|done].
Qed.

(** One round of the menu keeps the invariant, and stops at nothing that
    the steps it is made of do not stop at. *)
Lemma round_kept : leads I0 (round strptime_ok parse_int) (fun _ => I0) R.
Proof.
  unfold round.
  eapply leads_bind; [by apply (leads_print line)|]. intros ?.
  eapply leads_bind; [apply choice_read|]. intros choice.
  destruct (String.eqb choice "1").
  { by apply leads_then. }
  destruct (String.eqb choice "2").
  { eapply leads_bind; [by apply (leads_input line)|]. intros title.
    apply leads_pure. intros Ht.
    eapply leads_bind; [by apply (leads_input line)|]. intros importance.
    apply leads_pure. intros Hi.
    eapply leads_bind; [by apply (leads_input_date line)|]. intros date.
    apply leads_then.
    eapply leads_weaken;
      [apply (called (Diary.Add (VStr title) (VStr importance) (VStr date)))| |by auto..].
    intros w [Hw [Hl Hd]]. split; [done|]. cbn.
    split; [by eauto|]. split; by eauto. }
  destruct (String.eqb choice "3").
  { apply leads_id_then; [done|]. intros z.
    eapply leads_bind; [apply leads_get_event|].
    intros [[ref old]|].
    - apply edit_dialogue.
    - eapply leads_weaken;
        [apply (leads_print line (unless_ValueError I0 R) I1); by apply kept_unless
        |by intros w [? _]|by auto..]. }
  destruct (String.eqb choice "4").
  { apply leads_id_then; [done|]. intros z.
    by apply (leads_called _ _ (Diary.Delete (VInt z))). }
  destruct (String.eqb choice "5").
  { apply leads_id_then; [done|]. intros z.
    by apply (leads_called _ _ (Diary.MarkCompleted (VInt z))). }
  destruct (String.eqb choice "6").
  { apply leads_then.
    eapply leads_weaken; [apply (called Diary.SortByDate)| |by auto..].
    by intros w Hw. }
  destruct (String.eqb choice "0").
  { eapply leads_bind; [by apply (leads_print line)|]. intros ?.
    apply leads_ret. by apply I1_I0. }
  eapply leads_bind; [by apply (leads_print line)|]. intros ?.
  apply leads_ret. by apply I1_I0.
Qed.

End Round.

Lemma rounds_kept (I : world -> Prop) R fuel w o :
  leads I (round strptime_ok parse_int) (fun _ => I) R ->
  I w -> rounds strptime_ok parse_int fuel w = Some o ->
  match o with
  | Done _ w' => I w'
  | Fail e w' => R e w'
  end.
Proof.
  intros Hround. revert w. induction fuel as [|fuel IH]; intros w Hw; [done|].
  cbn [rounds]. specialize (Hround w Hw).
  destruct (round strptime_ok parse_int w) as [[] w'|e w'].
  - by apply IH.
  - by intros [= <-].
  - by intros [= <-].
Qed.

(** Every round that returns has read a line. *)
Lemma round_reads : reads_some (round strptime_ok parse_int).
Proof.
  unfold round.
  apply reads_some_bind_r; [apply reads_on_print|]. intros _.
  apply reads_some_bind_l; [apply reads_some_input|]. intros choice.
  assert (Hint : forall p, reads_on (int_input parse_int p)).
  { intros p. unfold int_input. apply reads_on_bind; [apply reads_on_input|].
    intros l. destruct (parse_int l); [apply reads_on_ret|]. intros w. lia. }
  repeat first
    [ apply reads_on_ret | apply reads_on_print | apply reads_on_input
    | apply reads_on_input_date | apply reads_on_call | apply reads_on_get_event
    | apply reads_on_display_events | apply Hint | apply reads_on_except
    | apply reads_on_bind; [|intros ?]
    | match goal with
      | |- reads_on (if ?b then _ else _) => destruct b
      | |- reads_on (match ?o with Some _ => _ | None => _ end) => destruct o as [[? ?]|]
      end ].
Qed.

Lemma rounds_returns fuel w :
  (length (stdin w) < fuel)%nat -> exists o, rounds strptime_ok parse_int fuel w = Some o.
Proof.
  revert w. induction fuel as [|fuel IH]; intros w Hlt; [lia|].
  cbn [rounds]. pose proof (round_reads w) as Hread.
  destruct (round strptime_ok parse_int w) as [[] w'|e w']; [|by eauto..].
  apply IH. lia.
Qed.

(** *** A session that can write its file *)

Lemma safe_mono k k' w : (k' <= k)%nat -> safe k w -> safe k' w.
Proof.
  intros Hle (Hok & Hre & Hl & Hw). split; [done|]. split; [done|]. split; [done|].
  eapply store_writable_mono; [|exact Hw]. lia.
Qed.

Lemma safe_kept k : kept (fun l => utf8_text l = true) starved (safe k).
Proof.
  split; [|split].
  - intros w w' Hev Hf [before Hin] (Hok & Hre & Hl & Hw).
    unfold safe, store_of. rewrite Hev, Hf. split; [done|]. split; [done|].
    rewrite Hin in Hl, Hw. apply Forall_app in Hl as [_ Hl]. split; [done|].
    eapply store_writable_mono; [|exact Hw]. rewrite length_app. lia.
  - by intros w (_ & _ & Hl & _).
  - intros w Hw. split; [done|]. eapply safe_mono; [|exact Hw]. lia.
Qed.

Lemma safe_choice_read p : leads (safe 0) (input p) (fun _ => safe 1) starved.
Proof.
  intros w (Hok & Hre & Hl & Hw). unfold input.
  destruct (stdin w) as [|l rest] eqn:Hin.
  - split; [done|]. split; [exact Hok|]. split; [exact Hre|]. split; [done|exact Hw].
  - apply Forall_cons in Hl as [_ Hl].
    split; [exact Hok|]. split; [exact Hre|]. split; [exact Hl|exact Hw].
Qed.

Lemma from_menu_clean w o :
  Forall (writable 0) (events w) ->
  from_menu (fun l => utf8_text l = true) (fun d => strptime_ok d = true) w o ->
  clean_op o.
Proof.
  intros Hall. destruct o as [t i d|n t i d|n|n|]; cbn; try done.
  - intros ((x & -> & Hx) & (y & -> & Hy) & (z & -> & Hz & _)).
    repeat split; by eexists.
  - intros (ref & old & Hf & Ht & Hi & Hd).
    apply first_with_id_Some in Hf as (Hl & _).
    destruct (proj1 (Forall_lookup _ _) Hall _ _ Hl)
      as (m & t0 & i0 & d0 & c0 & _ & _ & Ht0 & Hi0 & Hd0 & ->). cbn in *.
    split; [|split].
    + destruct Ht as [->|(x & -> & Hx)]; by eexists.
    + destruct Hi as [->|(x & -> & Hx)]; by eexists.
    + destruct Hd as [->|(x & -> & Hx & _)]; by eexists.
Qed.

Lemma safe_called o :
  leads (fun w => safe 1 w /\
                  from_menu (fun l => utf8_text l = true) (fun d => strptime_ok d = true) w o)
    (call (Diary.run o)) (fun _ => safe 0) starved.
Proof.
  intros w [(Hok & Hre & Hl & Hw) Hop].
  assert (clean_op o) as Hclean.
  { eapply from_menu_clean; [|exact Hop].
    destruct Hw as [_ Hw]. eapply Forall_impl; [exact Hw|].
    intros e. apply writable_mono. lia. }
  destruct (run_store_writable o (store_of w) (length (stdin w)) Hok Hw Hclean)
    as (r & s' & Hrun & Hok' & Hw').
  unfold call. fold (store_of w). rewrite Hrun.
  split; [exact Hok'|]. split; [|split; [exact Hl|exact Hw']].
  unfold restartable, store_of in *. cbn.
  exact (run_restartable o _ r s' Hre Hrun).
Qed.

Lemma data_model_printable e : data_model e -> printable e.
Proof. intros (n & t & i & d & c & _ & ->). repeat split. by exists t. Qed.

Lemma safe_displayed : leads (safe 1) display_events (fun _ => safe 0) starved.
Proof.
  intros w Hw.
  assert (Forall printable (events w)) as Hp.
  { destruct Hw as ((Hdm & _) & _). eapply Forall_impl; [exact Hdm|].
    apply data_model_printable. }
  destruct (display_events_printable w Hp) as (rows & -> & _).
  destruct (safe_kept 0) as (Hst & _). apply (Hst w); [done..|].
  eapply safe_mono; [|exact Hw]. lia.
Qed.

Lemma round_safe : leads (safe 0) (round strptime_ok parse_int) (fun _ => safe 0) starved.
Proof.
  apply (round_kept (safe 0) (safe 1) (fun l => utf8_text l = true) starved).
  - apply safe_kept.
  - apply safe_kept.
  - intros w. apply safe_mono. lia.
  - by intros e w [_ ?].
  - apply safe_choice_read.
  - apply safe_called.
  - apply safe_displayed.
Qed.

Lemma main_safe f lines s0 :
  Diary.init f = Ok (PyNone, s0) -> store_ok s0 ->
  Forall (fun l => utf8_text l = true) lines ->
  store_writable (length lines) (Diary.events s0) ->
  exists w',
    (main strptime_ok parse_int f lines = Some (Done tt w') \/
     main strptime_ok parse_int f lines = Some (Fail EOFError w')) /\
    safe 0 w'.
Proof.
  intros Hinit Hok Hl Hw. unfold main, call. cbn [events file].
  change (Diary.load_events (Diary.mkState [] f [])) with (Diary.init f). rewrite Hinit.
  set (w := mkWorld _ _ _ _).
  assert (safe 0 w) as Hsafe.
  { split; [exact Hok|]. split; [exact (init_restartable _ _ _ Hinit)|]. by split. }
  destruct (rounds_returns (S (length lines)) w) as [o Ho]; [cbn; lia|].
  rewrite Ho.
  pose proof (rounds_kept (safe 0) starved _ _ _ round_safe Hsafe Ho) as Hend.
  destruct o as [[] w'|e w']; [by eauto|]. destruct Hend as [-> Hend]. by eauto.
Qed.

(** *** The dates of a session *)

Lemma all_dated_kept :
  kept (fun _ => True) (fun _ => all_dated strptime_ok) (all_dated strptime_ok).
Proof.
  split; [|split]; [|by intros; apply Forall_true|done].
  intros w w' Hev _ _. unfold all_dated. by rewrite Hev.
Qed.

Lemma dated_called o :
  leads (fun w => all_dated strptime_ok w /\
                  from_menu (fun _ => True) (fun d => strptime_ok d = true) w o)
    (call (Diary.run o)) (fun _ => all_dated strptime_ok) (fun _ => all_dated strptime_ok).
Proof.
  intros w [Hw Hop]. unfold call. fold (store_of w).
  destruct (Diary.run o (store_of w)) as [[r s']|e] eqn:Hrun; [|done].
  unfold all_dated. cbn.
  eapply (run_dated _ o (store_of w)); [exact Hrun|exact Hw|].
  destruct o as [t i d|n t i d|n|n|]; cbn in *; try done.
  - destruct Hop as (_ & _ & x & -> & _ & Hx). by eauto.
  - destruct Hop as (ref & old & Hf & _ & _ & [->|(x & -> & _ & Hx)]).
    + right. by eauto.
    + left. by eauto.
Qed.

Lemma dated_displayed :
  leads (all_dated strptime_ok) display_events
    (fun _ => all_dated strptime_ok) (fun _ => all_dated strptime_ok).
Proof.
  intros w Hw. pose proof (display_events_frame w) as H. unfold all_dated in *.
  destruct (display_events w); destruct H as (-> & _); done.
Qed.

Lemma round_dated :
  leads (all_dated strptime_ok) (round strptime_ok parse_int)
    (fun _ => all_dated strptime_ok) (fun _ => all_dated strptime_ok).
Proof.
  apply (round_kept (all_dated strptime_ok) (all_dated strptime_ok) (fun _ => True)
           (fun _ => all_dated strptime_ok)).
  - apply all_dated_kept.
  - apply all_dated_kept.
  - done.
  - done.
  - intros p. eapply leads_weaken; [apply (leads_input _ _ _ p all_dated_kept)|by auto| |by auto].
    by intros a w [? _].
  - apply dated_called.
  - apply dated_displayed.
Qed.

Lemma main_dated f lines s0 :
  Diary.init f = Ok (PyNone, s0) ->
  Forall (dated (fun d => strptime_ok d = true)) (Diary.events s0) ->
  exists o,
    main strptime_ok parse_int f lines = Some o /\
    match o with
    | Done _ w' | Fail _ w' => all_dated strptime_ok w'
    end.
Proof.
  intros Hinit Hdated. unfold main, call. cbn [events file].
  change (Diary.load_events (Diary.mkState [] f [])) with (Diary.init f). rewrite Hinit.
  set (w := mkWorld _ _ _ _).
  destruct (rounds_returns (S (length lines)) w) as [o Ho]; [cbn; lia|].
  exists o. split; [done|].
  pose proof (rounds_kept (all_dated strptime_ok) _ _ w _ round_dated Hdated Ho) as Hend.
  by destruct o.
Qed.
End Session.

(** X17. [main] ends on every finite input: the loop of the menu stops
    when the user leaves, when an exception is raised, or when the input
    is used up, each round reading a line at least. *)
Theorem main_ends (strptime_ok : string -> bool) (parse_int : string -> option Z)
    (f : option Diary.contents) (lines : list string) :
  exists o, Console.main strptime_ok parse_int f lines = Some o.
Proof.
  unfold Console.main.
  destruct (Console.call Diary.load_events _) as [r w|e w] eqn:Hload; [|by eauto].
  apply rounds_returns.
  assert (Console.stdin w = lines) as ->; [|lia].
  unfold Console.call in Hload. destruct (Diary.load_events _) as [[a s]|] ; [|done].
  by injection Hload as _ <-.
Qed.

(** X18. A session never crashes where the file can be written: when the
    file is absent, or loads to events with distinct positive integer
    ids, UTF-8 text as title, importance and date and boolean flags,
    when every line typed is UTF-8 text, and when the ids leave room
    below the limit of 4300 digits for one more id for every line typed,
    [main] either returns (the user left) or stops at the [EOFError] of
    an [input] with nothing left to read; no other exception is raised,
    and none inside the methods of the store for the handler of
    [ValueError] to catch. In the world it ends in, the store follows the
    data model, a restart would read the file back as the list in memory
    and every event can be written. *)
Theorem main_never_crashes (strptime_ok : string -> bool) (parse_int : string -> option Z)
    (f : option Diary.contents) (lines : list string) (s0 : Diary.state) :
  Diary.init f = Ok (PyNone, s0) -> store_ok s0 ->
  Forall (fun l => utf8_text l = true) lines ->
  store_writable (length lines) (Diary.events s0) ->
  exists w',
    (Console.main strptime_ok parse_int f lines = Some (Console.Done tt w') \/
     Console.main strptime_ok parse_int f lines = Some (Console.Fail Console.EOFError w')) /\
    store_ok (store_of w') /\ restartable (store_of w') /\
    store_writable 0 (Console.events w').
Proof.
  intros Hinit Hok Hl Hw.
  destruct (main_safe strptime_ok parse_int f lines s0 Hinit Hok Hl Hw)
    as (w' & Hmain & Hok' & Hre' & _ & Hw').
  exists w'. split; [done|]. split; [done|]. split; [done|].
  eapply store_writable_mono; [|exact Hw']. lia.
Qed.

Lemma main_never_crashes_witness :
  let ok s := (String.length s =? 10)%nat in
  let int s := if String.eqb s "1" then Some 1 else None in
  let lines := ["2"; "Встреча"; "High"; "soon"; "2024-06-01"; "5"; "1"; "6"; "4"; "one"] in
  exists w',
    (Console.main ok int None lines = Some (Console.Done tt w') \/
     Console.main ok int None lines = Some (Console.Fail Console.EOFError w')) /\
    store_ok (store_of w') /\ restartable (store_of w') /\
    store_writable 0 (Console.events w').
Proof.
  intros ok int lines.
  apply (main_never_crashes ok int None lines (Diary.mkState [] None [])).
  - reflexivity.
  - split; [apply Forall_nil_2|apply NoDup_nil_2].
  - unfold lines. repeat (apply Forall_cons; split; [reflexivity|]). apply Forall_nil_2.
  - split; [apply Z.ltb_lt; by vm_compute|apply Forall_nil_2].
Defined.

(** X19. Only dates that [strptime] takes are stored through the menu: if
    the file loads, and every event on it is dated by a string that
    [strptime] accepts (or there is no file), then so is every event at
    the end of the session, whatever was typed and however the session
    ends: by the user leaving or by an exception. *)
Theorem main_stores_accepted_dates (strptime_ok : string -> bool)
    (parse_int : string -> option Z) (f : option Diary.contents) (lines : list string)
    (s0 : Diary.state) :
  Diary.init f = Ok (PyNone, s0) ->
  Forall (dated (fun d => strptime_ok d = true)) (Diary.events s0) ->
  exists o,
    Console.main strptime_ok parse_int f lines = Some o /\
    match o with
    | Console.Done _ w' | Console.Fail _ w' =>
        Forall (dated (fun d => strptime_ok d = true)) (Console.events w')
    end.
Proof. apply main_dated. Qed.

Lemma main_stores_accepted_dates_witness :
  let ok s := (String.length s =? 10)%nat in
  let int s := if String.eqb s "1" then Some 1 else None in
  let lines := ["2"; "Meeting"; "High"; "soon"; "2024-06-01";
                "3"; "1"; ""; ""; "y"; "later"; "2024-07-01"; "0"] in
  exists o,
    Console.main ok int None lines = Some o /\
    match o with
    | Console.Done _ w' | Console.Fail _ w' =>
        Forall (dated (fun d => ok d = true)) (Console.events w')
    end.
Proof.
  intros ok int lines.
  apply (main_stores_accepted_dates ok int None lines (Diary.mkState [] None [])).
  - reflexivity.
  - apply Forall_nil_2.
Defined.

(** X20. Where the menu asks for an id (to edit, delete or mark), a line
    that [int] does not take is answered by the complaint about the id:
    the round is over, no method of the store was called, list and file
    are untouched and the next line typed is read as a choice again. *)
Theorem round_bad_id (strptime_ok : string -> bool) (parse_int : string -> option Z)
    (w : Console.world) (choice line : string) (rest : list string) :
  choice ∈ ["3"; "4"; "5"] -> parse_int line = None ->
  Console.stdin w = choice :: line :: rest ->
  exists p,
    Console.round strptime_ok parse_int w =
      Console.Done true
        (Console.mkWorld (Console.events w) (Console.file w) rest
           (Console.stdout w ++
            [Console.Menu; Console.Asked Console.AskChoice; Console.Asked p; Console.BadId])).
Proof.
  intros Hchoice Hparse Hin. destruct w as [evs f sin out]. cbn in *. subst sin.
  repeat (apply elem_of_cons in Hchoice as [->|Hchoice]);
    [| | |by apply elem_of_nil in Hchoice].
  - exists Console.AskEditId.
    unfold Console.round, Console.except_ValueError, Console.int_input, mbind,
      Console.M_bind, Console.print, Console.input; cbn.
    rewrite Hparse. cbn. by rewrite <- ?app_assoc.
  - exists Console.AskDeleteId.
    unfold Console.round, Console.except_ValueError, Console.int_input, mbind,
      Console.M_bind, Console.print, Console.input; cbn.
    rewrite Hparse. cbn. by rewrite <- ?app_assoc.
  - exists Console.AskCompleteId.
    unfold Console.round, Console.except_ValueError, Console.int_input, mbind,
      Console.M_bind, Console.print, Console.input; cbn.
    rewrite Hparse. cbn. by rewrite <- ?app_assoc.
Qed.

Lemma round_bad_id_witness :
  let ok s := (String.length s =? 10)%nat in
  let int s := if String.eqb s "1" then Some 1 else None in
  let ev := Event.init (VInt 1) (VStr "t") (VStr "Low") (VStr "2024-01-01") (VBool false) in
  let w := Console.mkWorld [ev] (saved [ev]) ["4"; "one"; "0"] [] in
  exists p,
    Console.round ok int w =
      Console.Done true
        (Console.mkWorld [ev] (saved [ev]) ["0"]
           [Console.Menu; Console.Asked Console.AskChoice; Console.Asked p; Console.BadId]).
Proof.
  intros ok int ev w. apply (round_bad_id ok int w "4" "one" ["0"]).
  - apply list_elem_of_further, list_elem_of_here.
  - reflexivity.
  - reflexivity.
Defined.

(** X21. In the edit dialogue, leaving title and importance empty and not
    asking for a new date keeps the event as it is: [edit_event] is called
    with the values the event has, the list is unchanged, the file is
    rewritten from it and the update is confirmed. *)
Theorem round_edit_nothing (strptime_ok : string -> bool) (parse_int : string -> option Z)
    (w : Console.world) (line answer : string) (rest : list string) (z : Z)
    (ref : nat) (old : Event.t) :
  Console.stdin w = "3" :: line :: "" :: "" :: answer :: rest ->
  parse_int line = Some z ->
  first_with_id (VInt z) (Console.events w) = Some (ref, old) ->
  Console.lower_is_y answer = false ->
  Console.round strptime_ok parse_int w =
    Console.Done true
      (Console.mkWorld (Console.events w) (saved (Console.events w)) rest
         (Console.stdout w ++
          [Console.Menu; Console.Asked Console.AskChoice; Console.Asked Console.AskEditId;
           Console.EditHint;
           Console.Asked (Console.AskNewTitle (Event.title old));
           Console.Asked (Console.AskNewImportance (Event.importance old));
           Console.Asked Console.AskChangeDate;
           Console.Said Diary.MsgUpdated])).
Proof.
  intros Hin Hparse Hfind Hno. destruct w as [evs f sin out].
  cbn [Console.stdin Console.events Console.file Console.stdout] in *. subst sin.
  pose proof Hfind as (Hl & _)%first_with_id_Some.
  unfold Console.round, Console.except_ValueError, Console.int_input, mbind,
    Console.M_bind, Console.print, Console.input, Console.get_event, Console.call;
    cbn -[Console.lower_is_y first_with_id Diary.edit_event].
  rewrite Hparse. cbn -[Console.lower_is_y first_with_id Diary.edit_event].
  rewrite Hfind. cbn -[Console.lower_is_y first_with_id Diary.edit_event].
  rewrite Hno. cbn -[Console.lower_is_y first_with_id Diary.edit_event].
  rewrite (edit_event_found (VInt z) _ _ _ (Diary.mkState evs f []) ref old Hfind).
  cbn. unfold Console.or_else; cbn.
  assert (forall v : value, (if Py.truthy v then v else v) = v) as Hsame
    by (intros v; by destruct (Py.truthy v)).
  rewrite !Hsame. destruct old as [a b c d x]; cbn.
  rewrite (list_insert_id _ _ _ Hl). by rewrite <- ?app_assoc.
Qed.

Lemma round_edit_nothing_witness :
  let ok s := (String.length s =? 10)%nat in
  let int s := if String.eqb s "1" then Some 1 else None in
  let ev := Event.init (VInt 1) (VStr "t") (VStr "Low") (VStr "2024-01-01") (VBool false) in
  let w := Console.mkWorld [ev] None ["3"; "1"; ""; ""; "n"; "0"] [] in
  Console.round ok int w =
    Console.Done true
      (Console.mkWorld [ev] (saved [ev]) ["0"]
         [Console.Menu; Console.Asked Console.AskChoice; Console.Asked Console.AskEditId;
          Console.EditHint;
          Console.Asked (Console.AskNewTitle (VStr "t"));
          Console.Asked (Console.AskNewImportance (VStr "Low"));
          Console.Asked Console.AskChangeDate;
          Console.Said Diary.MsgUpdated]).
Proof.
  intros ok int ev w.
  exact (round_edit_nothing ok int w "1" "n" ["0"] 1 0%nat ev eq_refl eq_refl eq_refl eq_refl).
Defined.

(** X22. When [Diary()] raises on the file (text that is not JSON, a
    record without a required key, a document that is not a list), [main]
    ends with that exception before the menu is shown: nothing is printed,
    no line is read, and the file is as it was. *)
Theorem main_stops_on_bad_file (strptime_ok : string -> bool)
    (parse_int : string -> option Z) (f : option Diary.contents) (lines : list string)
    (e : exn) :
  Diary.init f = Raise e ->
  Console.main strptime_ok parse_int f lines =
    Some (Console.Fail (Console.Uncaught e) (Console.mkWorld [] f lines [])).
Proof.
  intros Hinit. unfold Console.main, Console.call. cbn [Console.events Console.file].
  change (Diary.load_events (Diary.mkState [] f [])) with (Diary.init f).
  by rewrite Hinit.
Qed.

Lemma main_stops_on_bad_file_witness :
  let ok s := (String.length s =? 10)%nat in
  let int s := if String.eqb s "1" then Some 1 else None in
  let f := Some (Diary.Json (VList [VDict [("id", VInt 1); ("title", VStr "t")]])) in
  Console.main ok int f ["1"; "0"] =
    Some (Console.Fail (Console.Uncaught (KeyError "importance"))
            (Console.mkWorld [] f ["1"; "0"] [])).
Proof.
  intros ok int f.
  exact (main_stops_on_bad_file ok int f ["1"; "0"] (KeyError "importance") eq_refl).
Defined.
